(** * InvestingCrawler: the [IndexHistoricalData] session of DataExtraction.py

    A shallow embedding of [src/DataExtraction.py].  The session object, the
    caller-owned configuration dictionaries it aliases, the console and the
    file system are explicit state; Python exceptions are explicit results.
    The collaborators the program delegates to (the [float] builtin, the lxml
    parser behind [BeautifulSoup], [pandas.read_html], the [urllib] request
    constructor) are variables of a section; the network and the clock are
    fields of the world the operations run in. *)

From Stdlib Require Import ZArith Ascii String List Floats.SpecFloat.
From stdpp Require Import gmap strings list fin_maps pretty.

Set Warnings "-register-all".
Open Scope string_scope.
Open Scope Z_scope.

(** ** Python values, exceptions and results *)

(** A raised Python exception: its class name and its message. *)
Record exn := Exn { cls : string; msg : string }.

Inductive result (A : Type) : Type :=
| Ok (a : A)
| Raise (e : exn).
Arguments Ok {A} a.
Arguments Raise {A} e.

Definition TypeError (m : string) : exn := Exn "TypeError" m.
Definition KeyError (m : string) : exn := Exn "KeyError" m.
Definition AttributeError (m : string) : exn := Exn "AttributeError" m.
Definition IndexError (m : string) : exn := Exn "IndexError" m.
Definition ValueError (m : string) : exn := Exn "ValueError" m.
Definition URLError (reason : string) : exn := Exn "URLError" reason.

(** [except urllib.error.URLError] matches the class and its two subclasses
    of the standard library. *)
Definition is_URLError (e : exn) : bool :=
  bool_decide (cls e ∈ ["URLError"; "HTTPError"; "ContentTooShortError"]).

(** [except ValueError]: the class and the subclasses of the builtins. *)
Definition is_ValueError (e : exn) : bool :=
  bool_decide (cls e ∈ ["ValueError"; "UnicodeError"; "UnicodeDecodeError";
                        "UnicodeEncodeError"; "UnicodeTranslateError"]).

(** [err.reason] of a caught [URLError]. *)
Definition reason (e : exn) : string := msg e.

(** The values stored in the dictionaries and in [latest_price]. *)
Inductive pyval :=
| VNone
| VInt (z : Z)
| VFloat (f : spec_float)
| VStr (s : string).

Abbreviation dict := (gmap string pyval).
Abbreviation loc := positive.
Abbreviation bytes := (list Byte.byte).

(** ** [datetime] and [strftime] *)

(** A [datetime.datetime]; the microsecond is not read by the program. *)
Record datetime := {
  year : Z; month : Z; day : Z;
  hour : Z; minute : Z; second : Z
}.

Definition digit (n : Z) : ascii := ascii_of_N (Z.to_N (48 + n)).

(** A two-digit zero-padded field ([%m], [%d], [%H], [%M], [%S]). *)
Definition pad2 (n : Z) : string :=
  String (digit (n / 10)) (String (digit (n mod 10)) "").

(** One directive of the format string. *)
Definition directive (c : ascii) (t : datetime) : string :=
  if Ascii.eqb c "Y" then pretty (year t)
  else if Ascii.eqb c "m" then pad2 (month t)
  else if Ascii.eqb c "d" then pad2 (day t)
  else if Ascii.eqb c "H" then pad2 (hour t)
  else if Ascii.eqb c "M" then pad2 (minute t)
  else if Ascii.eqb c "S" then pad2 (second t)
  else if Ascii.eqb c "%" then "%"
  else String "%" (String c "").

(** [t.strftime(fmt)] for the directives the program uses; ordinary
    characters are copied. *)
Fixpoint strftime_go (pct : bool) (fmt : string) (t : datetime) : string :=
  match fmt with
  | EmptyString => if pct then "%" else ""
  | String c rest =>
      if pct then directive c t +:+ strftime_go false rest t
      else if Ascii.eqb c "%" then strftime_go true rest t
      else String c (strftime_go false rest t)
  end.

Definition strftime (t : datetime) (fmt : string) : string :=
  strftime_go false fmt t.

(** The range in which the platforms agree on [%Y]: four digits. *)
Definition valid_datetime (t : datetime) : Prop :=
  (1000 ≤ year t ≤ 9999 ∧ 1 ≤ month t ≤ 12 ∧ 1 ≤ day t ≤ 31 ∧
   0 ≤ hour t < 24 ∧ 0 ≤ minute t < 60 ∧ 0 ≤ second t < 60)%Z.

(** A decimal digit, and a string of decimal digits. *)
Definition is_digit (c : ascii) : bool :=
  let n := N_of_ascii c in (48 <=? n)%N && (n <=? 57)%N.

Fixpoint all_digits (s : string) : bool :=
  match s with
  | EmptyString => true
  | String c rest => is_digit c && all_digits rest
  end.

(** ** Strings *)

(** [',' in s] for a one-character needle. *)
Fixpoint contains_char (c : ascii) (s : string) : bool :=
  match s with
  | EmptyString => false
  | String a rest => Ascii.eqb a c || contains_char c rest
  end.

(** [str(v)], with the [str] of a float left to the collaborator. *)
Definition py_str (str_float : spec_float → string) (v : pyval) : string :=
  match v with
  | VNone => "None"
  | VInt z => pretty z
  | VFloat f => str_float f
  | VStr s => s
  end.

(** [v + suffix] where [suffix] is a [str]. *)
Definition py_add_str (v : pyval) (suffix : string) : result string :=
  match v with
  | VStr s => Ok (s +:+ suffix)
  | VNone => Raise (TypeError "unsupported operand type(s) for +: 'NoneType' and 'str'")
  | VInt _ => Raise (TypeError "unsupported operand type(s) for +: 'int' and 'str'")
  | VFloat _ => Raise (TypeError "unsupported operand type(s) for +: 'float' and 'str'")
  end.

(** ** The parsed page *)

Inductive node :=
| NText (s : string)
| NTag (name : string) (attrs : list (string * string)) (children : list node).

Fixpoint attr (k : string) (attrs : list (string * string)) : option string :=
  match attrs with
  | [] => None
  | (k', v) :: rest => if String.eqb k k' then Some v else attr k rest
  end.

(** [find_all(name, id=i)]: the matching tags of a subtree, in document
    order. *)
Fixpoint find_all_node (name i : string) (n : node) : list node :=
  match n with
  | NText _ => []
  | NTag t attrs kids =>
      (if String.eqb t name && bool_decide (attr "id" attrs = Some i)
       then [n] else [])
      ++ flat_map (find_all_node name i) kids
  end.

Definition find_all (doc : list node) (name i : string) : list node :=
  flat_map (find_all_node name i) doc.

(** [tag.get_text()]: the text of the subtree, concatenated. *)
Fixpoint get_text (n : node) : string :=
  match n with
  | NText s => s
  | NTag _ _ kids => String.concat "" (map get_text kids)
  end.

(** ** Data frames *)

(** A [pandas.DataFrame] as [read_html] builds it: named columns and rows of
    rendered cells under the default positional index. *)
Record DataFrame := { columns : list string; rows : list (list string) }.

(** [df.head(n)] for a non-negative [n]. *)
Definition head (n : nat) (df : DataFrame) : DataFrame :=
  {| columns := columns df; rows := take n (rows df) |}.

Definition join (sep : string) (cells : list string) : string :=
  String.concat sep cells.

Fixpoint number_rows (i : nat) (rs : list (list string)) : list (list string) :=
  match rs with
  | [] => []
  | r :: rest => (pretty i :: r) :: number_rows (S i) rest
  end.

(** What a call [df.to_csv(path, ...)] does: the lines the file at [path]
    holds afterwards, if the call got as far as writing it, and how the call
    ends (normally, or with the [OSError] of a path that cannot be written). *)
Record csv_effect := {
  written : option (list string);
  ending : result unit
}.

(** ** The session, the world and the monad of the methods *)

Abbreviation header_map := (gmap string string).

(** A [urllib.request.Request]. *)
Record request := { full_url : string; req_headers : header_map }.

(** The attributes of an [IndexHistoricalData] object.  [data] is a
    reference: the dictionary itself lives in the heap of the world, where
    its owner sees every write made through the session. *)
Record session := {
  api_url : string;
  headers : option header_map;
  data : option loc;
  query_time : datetime;
  response : option bytes;
  observations : option DataFrame;
  latest_price : pyval
}.

(** What [print] sends to the console: a line of text or a frame. *)
Inductive output :=
| OutLine (s : string)
| OutFrame (df : DataFrame).

(** Everything outside the session: the dictionaries, the clock, the remote
    site as seen through [urlopen(req).read()] and [requests.post(...).content],
    the console, the files written so far, by the path they were written
    under, and what pandas and the file system make of a call
    [df.to_csv(path, sep=sep, header=header, index=index)]. *)
Record world := {
  heap : gmap loc dict;
  clock : datetime;
  urlopen : request → result bytes;
  post : string → option dict → option header_map → result bytes;
  stdout : list output;
  files : gmap string (list string);
  to_csv : DataFrame → string → string → bool → bool → csv_effect
}.

Definition M (A : Type) : Type := session → world → result A * session * world.

#[global] Instance M_ret : MRet M := λ A a s w, (Ok a, s, w).

#[global] Instance M_bind : MBind M := λ A B k m s w,
  match m s w with
  | (Ok a, s', w') => k a s' w'
  | (Raise e, s', w') => (Raise e, s', w')
  end.

Definition raise {A} (e : exn) : M A := λ s w, (Raise e, s, w).

Definition lift {A} (r : result A) : M A := λ s w, (r, s, w).

Definition get_self : M session := λ s w, (Ok s, s, w).
Definition get_world : M world := λ s w, (Ok w, s, w).
Definition put_self (s' : session) : M unit := λ _ w, (Ok tt, s', w).
Definition put_world (w' : world) : M unit := λ s _, (Ok tt, s, w').

(** [try: body except C as err: handler err]. *)
Definition try_except {A} (body : M A) (C : exn → bool) (handler : exn → M A)
  : M A := λ s w,
  match body s w with
  | (Raise e, s', w') => if C e then handler e s' w' else (Raise e, s', w')
  | r => r
  end.

Definition outcome {A} (r : result A * session * world) : result A := r.1.1.
Definition self_after {A} (r : result A * session * world) : session := r.1.2.
Definition world_after {A} (r : result A * session * world) : world := r.2.

(** *** Field updates *)

Definition with_headers (h : option header_map) (s : session) : session :=
  {| api_url := api_url s; headers := h; data := data s;
     query_time := query_time s; response := response s;
     observations := observations s; latest_price := latest_price s |}.

Definition with_data (d : option loc) (s : session) : session :=
  {| api_url := api_url s; headers := headers s; data := d;
     query_time := query_time s; response := response s;
     observations := observations s; latest_price := latest_price s |}.

Definition with_response (r : option bytes) (s : session) : session :=
  {| api_url := api_url s; headers := headers s; data := data s;
     query_time := query_time s; response := r;
     observations := observations s; latest_price := latest_price s |}.

Definition with_observations (o : option DataFrame) (s : session) : session :=
  {| api_url := api_url s; headers := headers s; data := data s;
     query_time := query_time s; response := response s;
     observations := o; latest_price := latest_price s |}.

Definition with_latest_price (p : pyval) (s : session) : session :=
  {| api_url := api_url s; headers := headers s; data := data s;
     query_time := query_time s; response := response s;
     observations := observations s; latest_price := p |}.

Definition with_heap (h : gmap loc dict) (w : world) : world :=
  {| heap := h; clock := clock w; urlopen := urlopen w; post := post w;
     stdout := stdout w; files := files w; to_csv := to_csv w |}.

Definition with_stdout (o : list output) (w : world) : world :=
  {| heap := heap w; clock := clock w; urlopen := urlopen w; post := post w;
     stdout := o; files := files w; to_csv := to_csv w |}.

Definition with_files (f : gmap string (list string)) (w : world) : world :=
  {| heap := heap w; clock := clock w; urlopen := urlopen w; post := post w;
     stdout := stdout w; files := f; to_csv := to_csv w |}.

(** *** Primitive statements *)

Definition print (o : output) : M unit :=
  w ← get_world; put_world (with_stdout (stdout w ++ [o]) w).

(** The file at [path] now holds [lines]; an earlier one is replaced. *)
Definition write_file (path : string) (lines : list string) : M unit :=
  w ← get_world; put_world (with_files (<[path := lines]> (files w)) w).

(** [df.to_csv(path, sep=sep, header=header, index=index)]: what the call
    wrote is in the file, and the call ends as the world has it. *)
Definition df_to_csv (df : DataFrame) (path sep : string)
    (header index : bool) : M unit :=
  w ← get_world;
  let effect := to_csv w df path sep header index in
  match written effect with
  | Some lines => write_file path lines
  | None => mret tt
  end;;
  lift (ending effect).

(** A reference of the model that the heap does not hold: no Python state
    corresponds to it. *)
Definition dangling : exn := Exn "SystemError" "dangling reference".

(** [d[k]] *)
Definition getitem (d : option loc) (k : string) : M pyval :=
  match d with
  | None => raise (TypeError "'NoneType' object is not subscriptable")
  | Some l =>
      w ← get_world;
      match heap w !! l with
      | None => raise dangling
      | Some m =>
          match m !! k with
          | Some v => mret v
          | None => raise (KeyError ("'" +:+ k +:+ "'"))
          end
      end
  end.

(** [d[k] = v] *)
Definition setitem (d : option loc) (k : string) (v : pyval) : M unit :=
  match d with
  | None => raise (TypeError "'NoneType' object does not support item assignment")
  | Some l =>
      w ← get_world;
      match heap w !! l with
      | None => raise dangling
      | Some m => put_world (with_heap (<[l := <[k := v]> m]> (heap w)) w)
      end
  end.

(** The mapping a reference denotes, as [requests.post] reads it. *)
Definition contents (d : option loc) : M (option dict) :=
  match d with
  | None => mret None
  | Some l =>
      w ← get_world;
      match heap w !! l with
      | None => raise dangling
      | Some m => mret (Some m)
      end
  end.

(** [xs[0]] *)
Definition first {A} (xs : list A) : M A :=
  match xs with
  | [] => raise (IndexError "list index out of range")
  | x :: _ => mret x
  end.

(** ** The module-level configuration *)

(** The global [CFD]. *)
Definition CFD : dict :=
  <["name" := VStr "CFD"]>
  (<["curr_id" := VInt 8861]>
  (<["smlID" := VInt 300084]>
  (<["header" := VStr "London Gas Oil Futures"]>
  (<["sort_col" := VStr "date"]>
  (<["action" := VStr "historical_data"]>
  (<["url" := VStr "https://www.investing.com/commodities/london-gas-oil-historical-data"]>
   ∅)))))).

(** The global [HEADERS]. *)
Definition HEADERS : header_map :=
  <["User-Agent" := "Mozilla/5.0"]>
  (<["referer" := "https://www.investing.com"]>
  (<["host" := "www.investing.com"]>
  (<["X-Requested-With" := "XMLHttpRequest"]> ∅))).

(** ** The class [IndexHistoricalData] *)

(** What executing the [class] statement leaves in the class object: the
    default of [ending_date], computed from the clock of that moment. *)
Record klass := { ending_date_default : pyval }.

Definition IndexHistoricalData (w : world) : klass :=
  {| ending_date_default := VStr (strftime (clock w) "%m/%d/%Y") |}.

Definition __init__ (url : string) (w : world) : session :=
  {| api_url := url;
     headers := None;
     data := None;
     query_time := clock w;
     response := None;
     observations := None;
     latest_price := VInt 0 |}.

Definition set_headers (h : option header_map) : M unit :=
  s ← get_self; put_self (with_headers h s).

Definition set_form_data (d : option loc) : M unit :=
  s ← get_self; put_self (with_data d s).

Definition set_time_frame_frequency (frequency : pyval) : M unit :=
  s ← get_self; setitem (data s) "frequency" frequency.

Definition set_start_end_date (K : klass) (starting_date : pyval)
    (ending_date : option pyval) : M unit :=
  let ending_date := default (ending_date_default K) ending_date in
  s ← get_self;
  setitem (data s) "st_date" starting_date;;
  s ← get_self;
  setitem (data s) "end_date" ending_date.

Definition set_sort_order (sorting_order : pyval) : M unit :=
  s ← get_self; setitem (data s) "sort_ord" sorting_order.

(** A call of one of the three field setters. *)
Inductive setter :=
| SetFrequency (frequency : pyval)
| SetDateRange (starting_date : pyval) (ending_date : option pyval)
| SetSortOrder (sorting_order : pyval).

Definition call (K : klass) (c : setter) : M unit :=
  match c with
  | SetFrequency frequency => set_time_frame_frequency frequency
  | SetDateRange starting_date ending_date =>
      set_start_end_date K starting_date ending_date
  | SetSortOrder sorting_order => set_sort_order sorting_order
  end.

(** The calls of a list, one after the other. *)
Fixpoint calls (K : klass) (cs : list setter) : M unit :=
  match cs with
  | [] => mret tt
  | c :: rest => call K c;; calls K rest
  end.

(** The items a setter call assigns, as a function on the mapping. *)
Definition writes_of (K : klass) (d : dict) (c : setter) : dict :=
  match c with
  | SetFrequency frequency => <["frequency" := frequency]> d
  | SetDateRange starting_date ending_date =>
      <["end_date" := default (ending_date_default K) ending_date]>
        (<["st_date" := starting_date]> d)
  | SetSortOrder sorting_order => <["sort_ord" := sorting_order]> d
  end.

(** The keys the setters assign. *)
Definition setter_keys : list string :=
  ["frequency"; "st_date"; "end_date"; "sort_ord"].

Section Collaborators.

(** [float(s)] on a [str]: [None] stands for its [ValueError]. *)
Variable float : string → option spec_float.
(** [str(x)] on a [float]. *)
Variable str_float : spec_float → string.
(** [urllib.request.Request(url, headers=h)] *)
Variable Request : pyval → option header_map → result request.
(** [BeautifulSoup(page, 'lxml')]: the top-level nodes of the document. *)
Variable BeautifulSoup : bytes → list node.
(** [pd.read_html(body)] *)
Variable read_html : bytes → result (list DataFrame).

Definition py_float (s : string) : M spec_float :=
  match float s with
  | Some x => mret x
  | None => raise (ValueError ("could not convert string to float: '" +:+ s +:+ "'"))
  end.

Definition get_historical_price : M DataFrame :=
  s ← get_self;
  w ← get_world;
  form ← contents (data s);
  body ← lift (post w (api_url s) form (headers s));
  s ← get_self;
  put_self (with_response (Some body) s);;
  tables ← lift (read_html body);
  df ← first tables;
  s ← get_self;
  put_self (with_observations (Some df) s);;
  mret df.

Definition get_latest_price : M unit :=
  s ← get_self;
  url ← getitem (data s) "url";
  req ← lift (Request url (headers s));
  w ← get_world;
  web_page ← try_except
    (page ← lift (urlopen w req); mret (Some page))
    is_URLError
    (λ err, print (OutLine (reason err));; mret None);
  match web_page with
  | Some web_page =>
      parsed ← try_except
        (let bs := BeautifulSoup web_page in
         let spans := find_all bs "span" "last_last" in
         let lines := map get_text spans in
         str_price ← first lines;
         current_price ←
           (if negb (contains_char "," str_price)
            then py_float str_price
            else raise (AttributeError "'str' object has no attribute 'replae'"));
         mret (Some current_price))
        is_ValueError
        (λ _, print (OutLine "Fail to parse the latest price");; mret None);
      match parsed with
      | Some current_price =>
          s ← get_self;
          put_self (with_latest_price (VFloat current_price) s)
      | None => mret tt
      end
  | None => mret tt
  end.

Definition print_data : M unit :=
  s ← get_self;
  name ← getitem (data s) "name";
  print (OutLine (strftime (query_time s) "%Y-%m-%d %H:%M:%S"
                  +:+ ": The latest price of " +:+ py_str str_float name
                  +:+ " is " +:+ py_str str_float (latest_price s)));;
  print (OutLine "The retrieved historical prices (top 10) are shown below:");;
  match observations s with
  | None => raise (AttributeError "'NoneType' object has no attribute 'head'")
  | Some df => print (OutFrame (head 10 df))
  end.

Definition save_historical_data_to_csv : M unit :=
  s ← get_self;
  match observations s with
  | None => raise (AttributeError "'NoneType' object has no attribute 'to_csv'")
  | Some df =>
      name ← getitem (data s) "name";
      stem ← lift (py_add_str name "_");
      df_to_csv df
        (stem +:+ strftime (query_time s) "%Y%m%d_%H%M%S" +:+ ".csv")
        "," true false;;
      print (OutLine "Save completed!")
  end.

End Collaborators.

(** ** The lines of the price node *)

(** The list [lines] that [get_latest_price] builds from a page. *)
Definition price_lines (BeautifulSoup : bytes → list node) (page : bytes)
  : list string :=
  map get_text (find_all (BeautifulSoup page) "span" "last_last").

(** ** The lines of the presenter *)

(** The first line [print_data] writes. *)
Definition summary_line (str_float : spec_float → string) (s : session)
    (name : pyval) : output :=
  OutLine (strftime (query_time s) "%Y-%m-%d %H:%M:%S"
           +:+ ": The latest price of " +:+ py_str str_float name
           +:+ " is " +:+ py_str str_float (latest_price s)).

Definition header_line : output :=
  OutLine "The retrieved historical prices (top 10) are shown below:".

(** ** Method calls, traces and the script *)

(** A call of a method of the session by its user. *)
Inductive method :=
| SetHeaders (h : option header_map)
| SetFormData (d : option loc)
| Setter (c : setter)
| GetHistoricalPrice
| GetLatestPrice
| PrintData
| SaveCsv.

(** What happens around a session: its user calls a method, or the
    surroundings change (the clock advances, the remote site answers
    differently, the file system accepts other paths). *)
Inductive event :=
| Call (m : method)
| Env (t : datetime) (get : request → result bytes)
      (pst : string → option dict → option header_map → result bytes)
      (csv : DataFrame → string → string → bool → bool → csv_effect).

Definition with_env (t : datetime) (get : request → result bytes)
    (pst : string → option dict → option header_map → result bytes)
    (csv : DataFrame → string → string → bool → bool → csv_effect)
    (w : world) : world :=
  {| heap := heap w; clock := t; urlopen := get; post := pst;
     stdout := stdout w; files := files w; to_csv := csv |}.

Section Script.

Variable float : string → option spec_float.
Variable str_float : spec_float → string.
Variable Request : pyval → option header_map → result request.
Variable BeautifulSoup : bytes → list node.
Variable read_html : bytes → result (list DataFrame).
Variable K : klass.

Definition invoke (m : method) : M unit :=
  match m with
  | SetHeaders h => set_headers h
  | SetFormData d => set_form_data d
  | Setter c => call K c
  | GetHistoricalPrice => get_historical_price read_html;; mret tt
  | GetLatestPrice => get_latest_price float Request BeautifulSoup
  | PrintData => print_data str_float
  | SaveCsv => save_historical_data_to_csv
  end.

(** The session and the world after a trace; a call that raises leaves them
    as they were when it raised, and the trace goes on (its user caught the
    exception). *)
Fixpoint after (es : list event) (s : session) (w : world) : session * world :=
  match es with
  | [] => (s, w)
  | Call m :: rest =>
      let r := invoke m s w in after rest (self_after r) (world_after r)
  | Env t get pst csv :: rest => after rest s (with_env t get pst csv w)
  end.

(** The endpoint and the setter calls of the script. *)
Definition script_api : string :=
  "https://www.investing.com/instruments/HistoricalDataAjax".

Definition script_setters : list setter :=
  [SetFrequency (VStr "Daily"); SetSortOrder (VStr "DESC");
   SetDateRange (VStr "1/1/2017") None].

(** The block under [if __name__ == "__main__"], with the global [CFD]
    held at [cfd]. *)
Definition main (cfd : loc) (w : world) : result unit * session * world :=
  let ihd := __init__ "https://www.investing.com/instruments/HistoricalDataAjax" w in
  (set_headers (Some HEADERS);;
   set_form_data (Some cfd);;
   set_time_frame_frequency (VStr "Daily");;
   set_sort_order (VStr "DESC");;
   set_start_end_date K (VStr "1/1/2017") None;;
   get_latest_price float Request BeautifulSoup;;
   get_historical_price read_html;;
   print_data str_float;;
   save_historical_data_to_csv) ihd w.

End Script.

(** A dictionary as the setters may have left it: no key is lost, and only
    the setters' keys may hold another value. *)
Definition written_by_setters (d d' : dict) : Prop :=
  ∀ k : string,
    (k ∉ setter_keys → d' !! k = d !! k)
    ∧ (is_Some (d !! k) → is_Some (d' !! k)).

(** The dictionaries of a heap after such writes: the same references, each
    to a dictionary written by setters only. *)
Definition dictionaries_kept (h h' : gmap loc dict) : Prop :=
  ∀ l : loc,
    match h !! l with
    | Some d => ∃ d' : dict, h' !! l = Some d' ∧ written_by_setters d d'
    | None => h' !! l = None
    end.

(** ** A concrete instance, for the examples *)

Module Demo.

(** The digits of an unsigned decimal numeral. *)
Fixpoint digits_value (acc : Z) (s : string) : option Z :=
  match s with
  | EmptyString => Some acc
  | String c rest =>
      let n := Z.of_N (N_of_ascii c) - 48 in
      if bool_decide (0 ≤ n ≤ 9) then digits_value (10 * acc + n) rest
      else None
  end.

(** Splits at the first ['.']. *)
Fixpoint split_dot (s : string) : string * option string :=
  match s with
  | EmptyString => ("", None)
  | String c rest =>
      if Ascii.eqb c "." then ("", Some rest)
      else let '(a, b) := split_dot rest in (String c a, b)
  end.

Definition b64 (m : Z) : spec_float := binary_normalize 53 1024 m 0 false.

(** [float] on the plain numerals [ddd] and [ddd.ddd], rounded to binary64;
    every other string is rejected. *)
Definition float (s : string) : option spec_float :=
  let '(ip, fp) := split_dot s in
  let fp := default "" fp in
  if bool_decide (ip +:+ fp = "") then None
  else
    m ← digits_value 0 (ip +:+ fp);
    Some (SFdiv 53 1024 (b64 m) (b64 (10 ^ Z.of_nat (String.length fp)))).

(** [str] of a float; the digits of a finite value are not needed here. *)
Definition str_float (x : spec_float) : string :=
  match x with
  | S754_zero false => "0.0"
  | S754_zero true => "-0.0"
  | S754_infinity false => "inf"
  | S754_infinity true => "-inf"
  | S754_nan => "nan"
  | S754_finite _ _ _ => "finite"
  end.

(** The request constructor on a text URL with a header mapping. *)
Definition Request (url : pyval) (h : option header_map) : result request :=
  match url, h with
  | VStr u, Some hs => Ok {| full_url := u; req_headers := hs |}
  | VStr _, None => Raise (AttributeError "'NoneType' object has no attribute 'items'")
  | _, _ => Raise (ValueError "unknown url type")
  end.

(** A page whose only [span] shows [price]. *)
Definition page_showing (price : string) : list node :=
  [NTag "html" []
     [NTag "body" []
        [NTag "div" [("id", "quotes")]
           [NTag "span" [("class", "arial_26"); ("id", "last_last")]
              [NText price]]]]].

(** A page without the price node. *)
Definition page_without_price : list node :=
  [NTag "html" [] [NTag "body" [] [NTag "span" [("id", "other")] [NText "n/a"]]]].

(** A three-row table of observations. *)
Definition table3 : DataFrame :=
  {| columns := ["Date"; "Price"; "Open"];
     rows := [["Mar 01, 2019"; "620.25"; "611.00"];
              ["Feb 28, 2019"; "611.50"; "622.75"];
              ["Feb 27, 2019"; "623.00"; "615.25"]] |}.

(** [read_html] on a body with one table and on a body with none. *)
Definition read_html_table3 (_ : bytes) : result (list DataFrame) := Ok [table3].
Definition read_html_none (_ : bytes) : result (list DataFrame) :=
  Raise (ValueError "No tables found").

Definition t0 : datetime :=
  {| year := 2019; month := 3; day := 1; hour := 9; minute := 5; second := 7 |}.
Definition t1 : datetime :=
  {| year := 2019; month := 3; day := 2; hour := 0; minute := 0; second := 1 |}.

(** The serializer of pandas on frames of text cells: a cell that holds the
    separator, a quote or a line break is put in quotes, its quotes doubled;
    a row of one empty cell is a pair of quotes. *)
Definition quote : ascii := ascii_of_nat 34.

Fixpoint double_quotes (s : string) : string :=
  match s with
  | EmptyString => EmptyString
  | String c rest =>
      if Ascii.eqb c quote then String quote (String quote (double_quotes rest))
      else String c (double_quotes rest)
  end.

Fixpoint needs_quotes (sep cell : string) : bool :=
  match cell with
  | EmptyString => false
  | String c rest =>
      contains_char c sep || Ascii.eqb c quote
      || Ascii.eqb c (ascii_of_nat 10) || Ascii.eqb c (ascii_of_nat 13)
      || needs_quotes sep rest
  end.

Definition quoted (s : string) : string :=
  String quote (double_quotes s +:+ String quote EmptyString).

Definition csv_cell (sep cell : string) : string :=
  if needs_quotes sep cell then quoted cell else cell.

Definition csv_row (sep : string) (cells : list string) : string :=
  match cells with
  | [EmptyString] => quoted EmptyString
  | _ => join sep (map (csv_cell sep) cells)
  end.

Definition csv_lines (df : DataFrame) (sep : string) (header index : bool)
  : list string :=
  (if header
   then [csv_row sep ((if index then [""] else []) ++ columns df)]
   else [])
  ++ map (csv_row sep) (if index then number_rows 0 (rows df) else rows df).

(** The part of a path before its last slash, if it has one. *)
Fixpoint dirname (path : string) : option string :=
  match path with
  | EmptyString => None
  | String c rest =>
      match dirname rest with
      | Some dir => Some (String c dir)
      | None => if Ascii.eqb c "/" then Some EmptyString else None
      end
  end.

(** A working directory without subdirectories: a plain file name is
    written, a path into a directory is refused. *)
Definition flat_directory (df : DataFrame) (path sep : string)
    (header index : bool) : csv_effect :=
  match dirname path with
  | None =>
      {| written := Some (csv_lines df sep header index); ending := Ok tt |}
  | Some dir =>
      {| written := None;
         ending := Raise (Exn "OSError"
                      ("Cannot save file into a non-existent directory: '"
                       +:+ dir +:+ "'")) |}
  end.

(** [str] on the one float that the examples of the script print. *)
Definition str_6745 (_ : spec_float) : string := "67.45".

(** The caller's dictionary. *)
Definition cfd : loc := 1%positive.

(** A world holding [CFD], with the given answers of the remote site. *)
Definition world0 (get post_ : result bytes) : world :=
  {| heap := {[ cfd := CFD ]};
     clock := t0;
     urlopen := λ _, get;
     post := λ _ _ _, post_;
     stdout := [];
     files := ∅;
     to_csv := flat_directory |}.

(** The same world at another time of the clock. *)
Definition at_time (t : datetime) (w : world) : world :=
  {| heap := heap w; clock := t; urlopen := urlopen w; post := post w;
     stdout := stdout w; files := files w; to_csv := to_csv w |}.

Definition unreachable : result bytes := Raise (URLError "[Errno -2] Name or service not known").
Definition body : result bytes := Ok [].

(** A session right after the configuration calls of the script. *)
Definition configured (w : world) : session :=
  with_data (Some cfd) (with_headers (Some HEADERS) (__init__ "https://www.investing.com/instruments/HistoricalDataAjax" w)).

(** A second table, of one row. *)
Definition table1 : DataFrame :=
  {| columns := ["Date"; "Price"]; rows := [["Mar 04, 2019"; "625.00"]] |}.

(** A site that answers the form only when it carries the date range, the
    frequency and the sort order. *)
Definition has_text (f : dict) (k v : string) : bool :=
  match f !! k with
  | Some (VStr x) => String.eqb x v
  | _ => false
  end.

Definition strict_post (_ : string) (form : option dict)
    (_ : option header_map) : result bytes :=
  match form with
  | Some f =>
      if has_text f "st_date" "1/1/2017" && has_text f "end_date" "03/01/2019"
         && has_text f "frequency" "Daily" && has_text f "sort_ord" "DESC"
      then Ok []
      else Raise (Exn "HTTPError" "400 Bad Request")
  | None => Raise (Exn "HTTPError" "400 Bad Request")
  end.

(** The world of [world0] behind that site. *)
Definition strict_world (get : result bytes) : world :=
  {| heap := {[ cfd := CFD ]};
     clock := t0;
     urlopen := λ _, get;
     post := strict_post;
     stdout := [];
     files := ∅;
     to_csv := flat_directory |}.

(** A second configuration, held beside [CFD]. *)
Definition brent : loc := 2%positive.
Definition BRENT : dict :=
  <["name" := VStr "BRENT"]> (<["curr_id" := VInt 8833]> ∅).

End Demo.

(** * Properties *)

(** ** Running the monad *)

Ltac run :=
  unfold set_headers, set_form_data, set_time_frame_frequency,
    set_start_end_date, set_sort_order, getitem, setitem, contents, first,
    print, write_file, df_to_csv, try_except, py_float, lift, raise,
    get_self, get_world, put_self, put_world,
    mbind, M_bind, mret, M_ret, outcome, self_after, world_after;
  cbn.

Lemma setitem_unset (k : string) (v : pyval) (s : session) (w : world) :
  setitem None k v s w
  = (Raise (TypeError "'NoneType' object does not support item assignment"), s, w).
Proof. reflexivity. Qed.

Lemma setitem_set (l : loc) (d : dict) (k : string) (v : pyval)
    (s : session) (w : world) :
  heap w !! l = Some d →
  setitem (Some l) k v s w
  = (Ok tt, s, with_heap (<[l := <[k := v]> d]> (heap w)) w).
Proof. intros Hl. run. rewrite Hl. reflexivity. Qed.

Lemma getitem_unset (k : string) (s : session) (w : world) :
  getitem None k s w
  = (Raise (TypeError "'NoneType' object is not subscriptable"), s, w).
Proof. reflexivity. Qed.

Lemma getitem_set (l : loc) (d : dict) (k : string) (v : pyval)
    (s : session) (w : world) :
  heap w !! l = Some d → d !! k = Some v →
  getitem (Some l) k s w = (Ok v, s, w).
Proof. intros Hl Hk. run. rewrite Hl, Hk. reflexivity. Qed.

(** ** The unconfigured session *)

(** C10: a freshly constructed session has its query-state mapping unset,
    and on every session whose mapping is unset (so until [set_form_data] is
    called) each of the three field setters and the live-price fetch faults
    with the [TypeError] of subscripting [None], leaving the session (so also
    [latest_price]) and the world (so every dictionary) as they were. *)
Theorem fresh_session_faults
    (float : string → option spec_float)
    (Request : pyval → option header_map → result request)
    (BeautifulSoup : bytes → list node)
    (K : klass) (url : string) (w0 : world) :
  data (__init__ url w0) = None
  ∧ ∀ (s : session) (w : world)
      (frequency starting_date sorting_order : pyval)
      (ending_date : option pyval),
      data s = None →
      set_time_frame_frequency frequency s w
      = (Raise (TypeError "'NoneType' object does not support item assignment"), s, w)
      ∧ set_start_end_date K starting_date ending_date s w
        = (Raise (TypeError "'NoneType' object does not support item assignment"), s, w)
      ∧ set_sort_order sorting_order s w
        = (Raise (TypeError "'NoneType' object does not support item assignment"), s, w)
      ∧ get_latest_price float Request BeautifulSoup s w
        = (Raise (TypeError "'NoneType' object is not subscriptable"), s, w).
Proof.
  split; [reflexivity |].
  intros s w frequency starting_date sorting_order ending_date Hdata.
  unfold set_time_frame_frequency, set_start_end_date, set_sort_order,
    get_latest_price.
  run. rewrite Hdata. repeat split.
Qed.

Lemma fresh_session_faults_witness :
  let w := Demo.world0 Demo.body Demo.body in
  let s := with_headers (Some HEADERS) (__init__ "https://www.investing.com/instruments/HistoricalDataAjax" w) in
  data s = None
  ∧ outcome (set_time_frame_frequency (VStr "Daily") s w)
    = Raise (TypeError "'NoneType' object does not support item assignment")
  ∧ outcome (get_latest_price Demo.float Demo.Request (λ _, Demo.page_showing "67.45") s w)
    = Raise (TypeError "'NoneType' object is not subscriptable").
Proof.
  intros w s.
  destruct (fresh_session_faults Demo.float Demo.Request
              (λ _, Demo.page_showing "67.45") (IndexHistoricalData w)
              "" w) as [_ H].
  destruct (H s w (VStr "Daily") VNone VNone None eq_refl) as (H1 & _ & _ & H4).
  split; [reflexivity |].
  split; [rewrite H1 | rewrite H4]; reflexivity.
Defined.

(** ** The setters and the caller's dictionary *)

Lemma with_heap_same (w : world) : with_heap (heap w) w = w.
Proof. destruct w; reflexivity. Qed.

Lemma call_writes (K : klass) (c : setter) (l : loc) (d : dict)
    (s : session) (w : world) :
  data s = Some l → heap w !! l = Some d →
  call K c s w = (Ok tt, s, with_heap (<[l := writes_of K d c]> (heap w)) w).
Proof.
  intros Hs Hl. destruct c; unfold call; run; rewrite Hs; cbn; rewrite Hl; cbn.
  - reflexivity.
  - rewrite Hs; cbn. rewrite lookup_insert_eq, insert_insert_eq. reflexivity.
  - reflexivity.
Qed.

Lemma calls_write (K : klass) (cs : list setter) (l : loc) :
  ∀ (d : dict) (s : session) (w : world),
    data s = Some l → heap w !! l = Some d →
    calls K cs s w
    = (Ok tt, s, with_heap (<[l := foldl (writes_of K) d cs]> (heap w)) w).
Proof.
  induction cs as [| c cs IH]; intros d s w Hs Hl; cbn.
  - rewrite (insert_id _ _ _ Hl), with_heap_same. reflexivity.
  - unfold mbind, M_bind. rewrite (call_writes K c l d s w Hs Hl).
    rewrite (IH (writes_of K d c) s _ Hs) by apply lookup_insert_eq.
    cbn. rewrite insert_insert_eq. reflexivity.
Qed.

Lemma writes_of_frame (K : klass) (c : setter) (d : dict) (k : string) :
  k ∉ setter_keys → writes_of K d c !! k = d !! k.
Proof.
  unfold setter_keys. intros Hk.
  destruct c; cbn; repeat rewrite lookup_insert_ne; try reflexivity;
    intros <-; apply Hk; set_solver.
Qed.

Lemma writes_frame (K : klass) (cs : list setter) (k : string) :
  k ∉ setter_keys → ∀ d : dict, foldl (writes_of K) d cs !! k = d !! k.
Proof.
  intros Hk. induction cs as [| c cs IH]; intros d; cbn; [reflexivity |].
  rewrite IH. apply writes_of_frame, Hk.
Qed.

(** C8, as the code has it: [set_form_data] stores the caller's dictionary
    by reference, replacing the session's mapping wholesale; every later
    setter call writes its items into that same dictionary, so the caller's
    object takes the keys [frequency], [st_date], [end_date] and [sort_ord],
    while its other keys and every other dictionary stay as they were. *)
Theorem setters_write_into_caller_config (K : klass) (cs : list setter)
    (cfg : loc) (d : dict) (s : session) (w : world) :
  heap w !! cfg = Some d →
  let r := (set_form_data (Some cfg);; calls K cs) s w in
  outcome r = Ok tt
  ∧ data (self_after r) = Some cfg
  ∧ heap (world_after r) !! cfg = Some (foldl (writes_of K) d cs)
  ∧ (∀ k : string, k ∉ setter_keys → foldl (writes_of K) d cs !! k = d !! k)
  ∧ (∀ l : loc, l ≠ cfg → heap (world_after r) !! l = heap w !! l).
Proof.
  intros Hcfg r. subst r.
  unfold set_form_data, mbind, M_bind, get_self, put_self.
  rewrite (calls_write K cs cfg d (with_data (Some cfg) s) w eq_refl Hcfg).
  unfold outcome, self_after, world_after; cbn.
  split; [reflexivity |]. split; [reflexivity |].
  split; [apply lookup_insert_eq |].
  split; [intros k Hk; apply writes_frame, Hk |].
  intros l Hl. apply lookup_insert_ne. congruence.
Qed.

Lemma setters_write_into_caller_config_witness :
  let w := Demo.world0 Demo.body Demo.body in
  let K := IndexHistoricalData w in
  let cs := [SetFrequency (VStr "Daily"); SetSortOrder (VStr "DESC");
             SetDateRange (VStr "1/1/2017") None] in
  let r := (set_form_data (Some Demo.cfd);; calls K cs) (__init__ "" w) w in
  heap w !! Demo.cfd = Some CFD
  ∧ outcome r = Ok tt
  ∧ heap (world_after r) !! Demo.cfd = Some (foldl (writes_of K) CFD cs).
Proof.
  intros w K cs r.
  assert (Hcfg : heap w !! Demo.cfd = Some CFD) by apply lookup_singleton_eq.
  destruct (setters_write_into_caller_config K cs Demo.cfd CFD (__init__ "" w) w Hcfg)
    as (H1 & _ & H3 & _).
  split; [exact Hcfg |]. split; [exact H1 | exact H3].
Defined.

(** C8, as the claim states it, fails: after [set_form_data(CFD)] one call of
    [set_time_frame_frequency] changes the caller's dictionary. *)
Lemma caller_config_is_mutated :
  let w := Demo.world0 Demo.body Demo.body in
  let r := (set_form_data (Some Demo.cfd);;
            set_time_frame_frequency (VStr "Daily")) (__init__ "" w) w in
  outcome r = Ok tt
  ∧ ¬ (heap (world_after r) !! Demo.cfd = heap w !! Demo.cfd).
Proof.
  split; [reflexivity |].
  intros H.
  apply (f_equal (λ o : option dict, o ≫= (.!! "frequency"))) in H.
  vm_compute in H. discriminate H.
Qed.

(** ** The default end date *)

(** C9: the default of [ending_date] is the date of the clock when the class
    was defined: two calls of [set_start_end_date] without an end date, in
    any two worlds (so at any two times of the clock), both succeed on a
    configured session and both assign that one string to [end_date]. *)
Theorem default_end_date_fixed_at_definition (wdef : world)
    (s1 s2 : session) (w1 w2 : world) (l1 l2 : loc) (d1 d2 : dict)
    (start1 start2 : pyval) :
  data s1 = Some l1 → heap w1 !! l1 = Some d1 →
  data s2 = Some l2 → heap w2 !! l2 = Some d2 →
  let K := IndexHistoricalData wdef in
  let r1 := set_start_end_date K start1 None s1 w1 in
  let r2 := set_start_end_date K start2 None s2 w2 in
  let end_date (r : result unit * session * world) (l : loc) :=
    heap (world_after r) !! l ≫= (.!! "end_date") in
  outcome r1 = Ok tt ∧ outcome r2 = Ok tt
  ∧ end_date r1 l1 = Some (VStr (strftime (clock wdef) "%m/%d/%Y"))
  ∧ end_date r2 l2 = end_date r1 l1.
Proof.
  intros Hs1 Hl1 Hs2 Hl2 K r1 r2 end_date.
  pose proof (call_writes K (SetDateRange start1 None) l1 d1 s1 w1 Hs1 Hl1) as E1.
  pose proof (call_writes K (SetDateRange start2 None) l2 d2 s2 w2 Hs2 Hl2) as E2.
  cbn [call] in E1, E2. subst r1 r2 end_date. cbv beta.
  rewrite E1, E2. unfold outcome, world_after; cbn.
  rewrite !lookup_insert_eq; cbn. rewrite !lookup_insert_eq.
  repeat split.
Qed.

Lemma default_end_date_fixed_at_definition_witness :
  let wdef := Demo.world0 Demo.body Demo.body in
  let w2 := Demo.at_time Demo.t1 wdef in
  let K := IndexHistoricalData wdef in
  let s := Demo.configured wdef in
  let r1 := set_start_end_date K (VStr "1/1/2017") None s wdef in
  let r2 := set_start_end_date K (VStr "1/1/2018") None s w2 in
  clock w2 ≠ clock wdef
  ∧ heap (world_after r1) !! Demo.cfd ≫= (.!! "end_date") = Some (VStr "03/01/2019")
  ∧ heap (world_after r2) !! Demo.cfd ≫= (.!! "end_date") = Some (VStr "03/01/2019").
Proof.
  intros wdef w2 K s r1 r2.
  assert (Hcfg : heap wdef !! Demo.cfd = Some CFD) by apply lookup_singleton_eq.
  destruct (default_end_date_fixed_at_definition wdef s s wdef w2
              Demo.cfd Demo.cfd CFD CFD (VStr "1/1/2017") (VStr "1/1/2018")
              eq_refl Hcfg eq_refl Hcfg) as (_ & _ & H1 & H2).
  split; [discriminate |].
  split; [exact H1 | exact (eq_trans H2 H1)].
Defined.

(** ** Time stamps *)

#[local] Arguments String.append !_ _ : simpl nomatch.

Lemma append_assoc (a b c : string) : (a +:+ b) +:+ c = a +:+ (b +:+ c).
Proof. induction a as [| x a IH]; cbn; [reflexivity | rewrite IH; reflexivity]. Qed.



Lemma digit_is_digit (n : Z) : 0 ≤ n ≤ 9 → is_digit (digit n) = true.
Proof.
  intros Hn.
  assert (n = 0 ∨ n = 1 ∨ n = 2 ∨ n = 3 ∨ n = 4 ∨ n = 5 ∨ n = 6 ∨ n = 7
          ∨ n = 8 ∨ n = 9) as H by lia.
  repeat (destruct H as [-> | H]; [reflexivity |]). subst n. reflexivity.
Qed.

Lemma pad2_digits (n : Z) :
  0 ≤ n < 100 → String.length (pad2 n) = 2%nat ∧ all_digits (pad2 n) = true.
Proof.
  intros Hn. split; [reflexivity |]. unfold pad2; cbn.
  rewrite !digit_is_digit; [reflexivity | |].
  - pose proof (Z.mod_pos_bound n 10). lia.
  - assert (0 ≤ n / 10 < 10); [| lia].
    split; [apply Z.div_pos; lia | apply Z.div_lt_upper_bound; lia].
Qed.

Lemma pretty_N_char_is_digit (n : N) : is_digit (pretty_N_char n) = true.
Proof.
  destruct n as [| p]; [reflexivity |].
  do 4 (try (destruct p as [p | p |]; try reflexivity)).
Qed.

Lemma pretty_year_digits (y : Z) :
  1000 ≤ y ≤ 9999 →
  String.length (pretty y) = 4%nat ∧ all_digits (pretty y) = true.
Proof.
  intros Hy. destruct y as [| p | p]; try lia.
  change (pretty (Z.pos p)) with (pretty (N.pos p)).
  unfold pretty, pretty_N. rewrite decide_False by discriminate.
  set (n := N.pos p). assert (1000 ≤ n ≤ 9999)%N as Hn by lia. clearbody n.
  assert (0 < n / 10 ∧ 0 < n / 10 / 10 ∧ 0 < n / 10 / 10 / 10
          ∧ n / 10 / 10 / 10 / 10 = 0)%N as (H1 & H2 & H3 & H4).
  { rewrite !N.Div0.div_div. cbn.
    repeat split; try (apply N.div_str_pos; lia).
    apply N.div_small; lia. }
  rewrite pretty_N_go_step by lia.
  rewrite pretty_N_go_step by exact H1.
  rewrite pretty_N_go_step by exact H2.
  rewrite pretty_N_go_step by exact H3.
  rewrite H4, pretty_N_go_0. cbn.
  rewrite !pretty_N_char_is_digit. split; reflexivity.
Qed.




(** ** The exporter *)

Lemma bind_ok {A B : Type} (m : M A) (k : A → M B) (s s' : session)
    (w w' : world) (a : A) :
  m s w = (Ok a, s', w') → (m ≫= k) s w = k a s' w'.
Proof. intros E. unfold mbind, M_bind. rewrite E. reflexivity. Qed.

Lemma bind_raise {A B : Type} (m : M A) (k : A → M B) (s s' : session)
    (w w' : world) (e : exn) :
  m s w = (Raise e, s', w') → (m ≫= k) s w = (Raise e, s', w').
Proof. intros E. unfold mbind, M_bind. rewrite E. reflexivity. Qed.

Lemma df_to_csv_done (df : DataFrame) (path sep : string)
    (header index : bool) (lines : list string) (s : session) (w : world) :
  to_csv w df path sep header index
  = {| written := Some lines; ending := Ok tt |} →
  df_to_csv df path sep header index s w
  = (Ok tt, s, with_files (<[path := lines]> (files w)) w).
Proof. intros E. unfold df_to_csv. run. rewrite E. reflexivity. Qed.

Lemma df_to_csv_failed (df : DataFrame) (path sep : string)
    (header index : bool) (left_behind : option (list string)) (e : exn)
    (s : session) (w : world) :
  to_csv w df path sep header index
  = {| written := left_behind; ending := Raise e |} →
  df_to_csv df path sep header index s w
  = (Raise e, s,
     match left_behind with
     | Some lines => with_files (<[path := lines]> (files w)) w
     | None => w
     end).
Proof.
  intros E. unfold df_to_csv. run. rewrite E.
  destruct left_behind; reflexivity.
Qed.


Lemma save_series (s : session) (w : world) (l : loc) (d : dict)
    (name : string) (df : DataFrame) (lines : list string) :
  data s = Some l → heap w !! l = Some d → d !! "name" = Some (VStr name) →
  observations s = Some df →
  to_csv w df
    ((name +:+ "_") +:+ strftime (query_time s) "%Y%m%d_%H%M%S" +:+ ".csv")
    "," true false
  = {| written := Some lines; ending := Ok tt |} →
  save_historical_data_to_csv s w
  = (Ok tt, s,
     with_stdout (stdout w ++ [OutLine "Save completed!"])
       (with_files
          (<[(name +:+ "_") +:+ strftime (query_time s) "%Y%m%d_%H%M%S"
             +:+ ".csv" := lines]> (files w)) w)).
Proof.
  intros Hdata Hheap Hname Hobs Hcsv. unfold save_historical_data_to_csv.
  erewrite bind_ok by reflexivity. rewrite Hobs, Hdata.
  erewrite bind_ok by (eapply getitem_set; eassumption).
  erewrite bind_ok by reflexivity.
  erewrite bind_ok by (apply df_to_csv_done; exact Hcsv).
  reflexivity.
Qed.

(** C5, as the code has it: exporting while [observations] is unset raises an
    [AttributeError], the fault of reading [to_csv] on [None]; nothing has
    been written by then: no file is created, nothing is printed and the
    session is unchanged. *)
Theorem export_before_fetch_faults (s : session) (w : world) :
  observations s = None →
  save_historical_data_to_csv s w
  = (Raise (AttributeError "'NoneType' object has no attribute 'to_csv'"), s, w).
Proof. intros Hobs. unfold save_historical_data_to_csv. run. rewrite Hobs. reflexivity. Qed.

Lemma export_before_fetch_faults_witness :
  let w := Demo.world0 Demo.body Demo.body in
  let r := save_historical_data_to_csv (Demo.configured w) w in
  outcome r = Raise (AttributeError "'NoneType' object has no attribute 'to_csv'")
  ∧ files (world_after r) = ∅.
Proof.
  intros w r. subst r.
  rewrite (export_before_fetch_faults (Demo.configured w) w eq_refl).
  split; reflexivity.
Defined.

(** C5, as the claim states it, fails: the exception raised by an export
    before any fetch is not a [StateError]. *)
Lemma export_before_fetch_not_StateError :
  let w := Demo.world0 Demo.body Demo.body in
  ¬ ∃ m : string,
      outcome (save_historical_data_to_csv (Demo.configured w) w)
      = Raise (Exn "StateError" m).
Proof. intros w [m H]. vm_compute in H. discriminate H. Qed.



(** ** The presenter *)

Lemma strftime_timestamp (t : datetime) :
  strftime t "%Y-%m-%d %H:%M:%S"
  = pretty (year t) +:+ "-" +:+ pad2 (month t) +:+ "-" +:+ pad2 (day t)
    +:+ " " +:+ pad2 (hour t) +:+ ":" +:+ pad2 (minute t) +:+ ":"
    +:+ pad2 (second t).
Proof. reflexivity. Qed.

Lemma head_all (n : nat) (df : DataFrame) :
  (length (rows df) ≤ n)%nat → head n df = df.
Proof.
  intros Hn. destruct df as [cols rs]. unfold head; cbn in *.
  rewrite take_ge by exact Hn. reflexivity.
Qed.

(** C7, as the code has it: [print_data] writes, in order, a line with the
    query time as [%Y-%m-%d %H:%M:%S], the [name] of the configuration and
    the latest price, then the header line, then the first ten rows of the
    series in their order (all of them when there are ten or fewer).  It does
    not test that the series is there: with [observations] unset the two
    lines are written all the same and the call then faults with the
    [AttributeError] of reading [head] on [None]. *)
Theorem print_data_output (str_float : spec_float → string)
    (s : session) (w : world) (l : loc) (d : dict) (name : pyval) :
  data s = Some l → heap w !! l = Some d → d !! "name" = Some name →
  let r := print_data str_float s w in
  let line1 := summary_line str_float s name in
  self_after r = s ∧ heap (world_after r) = heap w
  ∧ files (world_after r) = files w
  ∧ match observations s with
    | Some df =>
        outcome r = Ok tt
        ∧ stdout (world_after r)
          = (stdout w ++ [line1; header_line; OutFrame (head 10 df)])%list
        ∧ columns (head 10 df) = columns df
        ∧ rows (head 10 df) = take 10 (rows df)
        ∧ ((length (rows df) ≤ 10)%nat → head 10 df = df)
    | None =>
        outcome r
        = Raise (AttributeError "'NoneType' object has no attribute 'head'")
        ∧ stdout (world_after r) = (stdout w ++ [line1; header_line])%list
    end.
Proof.
  intros Hs Hl Hname r line1. subst r line1.
  unfold print_data. run. rewrite Hs; cbn. rewrite Hl, Hname; cbn.
  destruct (observations s) as [df |]; cbn; rewrite <- !app_assoc; cbn.
  - repeat split. apply head_all.
  - repeat split.
Qed.

Lemma print_data_output_witness :
  let w := Demo.world0 Demo.body Demo.body in
  let s := with_observations (Some Demo.table3) (Demo.configured w) in
  let r := print_data Demo.str_float s w in
  outcome r = Ok tt
  ∧ stdout (world_after r)
    = [OutLine "2019-03-01 09:05:07: The latest price of CFD is 0";
       header_line; OutFrame Demo.table3].
Proof.
  intros w s r.
  assert (Hcfg : heap w !! Demo.cfd = Some CFD) by apply lookup_singleton_eq.
  destruct (print_data_output Demo.str_float s w Demo.cfd CFD (VStr "CFD")
              eq_refl Hcfg eq_refl) as (_ & _ & _ & H).
  cbn [observations s with_observations] in H.
  destruct H as (H1 & H2 & _). split; [exact H1 | exact H2].
Defined.

(** C7, as the claim states it, fails: with no series fetched the presenter
    writes its two lines and raises an error that is not the report
    "no data to display". *)
Lemma print_data_without_series :
  let w := Demo.world0 Demo.body Demo.body in
  let r := print_data Demo.str_float (Demo.configured w) w in
  length (stdout (world_after r)) = 2%nat
  ∧ ¬ ∃ c : string, outcome r = Raise (Exn c "no data to display").
Proof.
  split; [reflexivity |].
  intros [c H]. vm_compute in H. discriminate H.
Qed.

(** ** The live price *)

#[local] Arguments find_all : simpl never.

Section LivePrice.

Variable float : string → option spec_float.
Variable Request : pyval → option header_map → result request.
Variable BeautifulSoup : bytes → list node.

Variables (s : session) (w : world) (l : loc) (d : dict) (url : pyval)
  (req : request).
Hypothesis Hdata : data s = Some l.
Hypothesis Hheap : heap w !! l = Some d.
Hypothesis Hurl : d !! "url" = Some url.
Hypothesis Hreq : Request url (headers s) = Ok req.

Ltac fetch := unfold get_latest_price; run; rewrite Hdata; cbn;
  rewrite Hheap, Hurl; cbn; rewrite Hreq; cbn.

Lemma transport_failure (e : exn) :
  urlopen w req = Raise e → is_URLError e = true →
  get_latest_price float Request BeautifulSoup s w
  = (Ok tt, s, with_stdout (stdout w ++ [OutLine (reason e)]) w).
Proof. intros Hopen He. fetch. rewrite Hopen, He. reflexivity. Qed.

Lemma transport_fault_escapes (e : exn) :
  urlopen w req = Raise e → is_URLError e = false →
  get_latest_price float Request BeautifulSoup s w = (Raise e, s, w).
Proof. intros Hopen He. fetch. rewrite Hopen, He. reflexivity. Qed.

Lemma price_parsed (page : bytes) (str_price : string) (rest : list string)
    (x : spec_float) :
  urlopen w req = Ok page → price_lines BeautifulSoup page = str_price :: rest →
  contains_char "," str_price = false → float str_price = Some x →
  get_latest_price float Request BeautifulSoup s w
  = (Ok tt, with_latest_price (VFloat x) s, w).
Proof.
  unfold price_lines. intros Hopen Htexts Hcomma Hfloat. fetch.
  rewrite Hopen; cbn. rewrite Htexts, Hcomma; cbn. rewrite Hfloat. reflexivity.
Qed.

Lemma price_not_a_number (page : bytes) (str_price : string)
    (rest : list string) :
  urlopen w req = Ok page → price_lines BeautifulSoup page = str_price :: rest →
  contains_char "," str_price = false → float str_price = None →
  get_latest_price float Request BeautifulSoup s w
  = (Ok tt, s,
     with_stdout (stdout w ++ [OutLine "Fail to parse the latest price"]) w).
Proof.
  unfold price_lines. intros Hopen Htexts Hcomma Hfloat. fetch.
  rewrite Hopen; cbn. rewrite Htexts, Hcomma; cbn. rewrite Hfloat. reflexivity.
Qed.

Lemma price_with_comma (page : bytes) (str_price : string)
    (rest : list string) :
  urlopen w req = Ok page → price_lines BeautifulSoup page = str_price :: rest →
  contains_char "," str_price = true →
  get_latest_price float Request BeautifulSoup s w
  = (Raise (AttributeError "'str' object has no attribute 'replae'"), s, w).
Proof.
  unfold price_lines. intros Hopen Htexts Hcomma. fetch.
  rewrite Hopen; cbn. rewrite Htexts, Hcomma. reflexivity.
Qed.

Lemma price_node_missing (page : bytes) :
  urlopen w req = Ok page → price_lines BeautifulSoup page = [] →
  get_latest_price float Request BeautifulSoup s w
  = (Raise (IndexError "list index out of range"), s, w).
Proof.
  unfold price_lines. intros Hopen Htexts. fetch.
  rewrite Hopen; cbn. rewrite Htexts. reflexivity.
Qed.

End LivePrice.

(** C3: when the request is issued and fails with a [URLError], the fetch
    prints the reason and returns normally, the session (so [latest_price])
    being exactly as before: [0] if nothing was fetched since construction.
    A second failing fetch, in whatever world it runs, again leaves
    [latest_price] as it was. *)
Theorem transport_failure_keeps_price
    (float : string → option spec_float)
    (Request : pyval → option header_map → result request)
    (BeautifulSoup : bytes → list node)
    (s : session) (w w' : world) (l : loc) (d d' : dict) (url url' : pyval)
    (req req' : request) (e e' : exn) :
  data s = Some l →
  heap w !! l = Some d → d !! "url" = Some url →
  Request url (headers s) = Ok req →
  urlopen w req = Raise e → is_URLError e = true →
  heap w' !! l = Some d' → d' !! "url" = Some url' →
  Request url' (headers s) = Ok req' →
  urlopen w' req' = Raise e' → is_URLError e' = true →
  let r := get_latest_price float Request BeautifulSoup s w in
  let r' := get_latest_price float Request BeautifulSoup (self_after r) w' in
  (∀ (u : string) (w0 : world), latest_price (__init__ u w0) = VInt 0)
  ∧ outcome r = Ok tt
  ∧ self_after r = s
  ∧ world_after r = with_stdout (stdout w ++ [OutLine (reason e)]) w
  ∧ outcome r' = Ok tt
  ∧ latest_price (self_after r') = latest_price s.
Proof.
  intros Hdata Hheap Hurl Hreq Hopen He Hheap' Hurl' Hreq' Hopen' He' r r'.
  assert (Hr : r = (Ok tt, s, with_stdout (stdout w ++ [OutLine (reason e)]) w))
    by (eapply transport_failure; eassumption).
  assert (Hr' : r' = (Ok tt, s, with_stdout (stdout w' ++ [OutLine (reason e')]) w')).
  { subst r'. rewrite Hr. eapply transport_failure; eassumption. }
  rewrite Hr, Hr'. repeat split.
Qed.

Lemma transport_failure_keeps_price_witness :
  let w := Demo.world0 Demo.unreachable Demo.body in
  let s := Demo.configured w in
  let r := get_latest_price Demo.float Demo.Request
             (λ _, Demo.page_showing "67.45") s w in
  let r' := get_latest_price Demo.float Demo.Request
              (λ _, Demo.page_showing "67.45") (self_after r) (world_after r) in
  outcome r = Ok tt ∧ outcome r' = Ok tt
  ∧ latest_price (self_after r') = VInt 0
  ∧ stdout (world_after r) = [OutLine "[Errno -2] Name or service not known"].
Proof.
  intros w s r r'.
  assert (Hcfg : heap w !! Demo.cfd = Some CFD) by apply lookup_singleton_eq.
  destruct (transport_failure_keeps_price Demo.float Demo.Request
              (λ _, Demo.page_showing "67.45") s w (world_after r)
              Demo.cfd CFD CFD
              (VStr "https://www.investing.com/commodities/london-gas-oil-historical-data")
              (VStr "https://www.investing.com/commodities/london-gas-oil-historical-data")
              {| full_url := "https://www.investing.com/commodities/london-gas-oil-historical-data";
                 req_headers := HEADERS |}
              {| full_url := "https://www.investing.com/commodities/london-gas-oil-historical-data";
                 req_headers := HEADERS |}
              (URLError "[Errno -2] Name or service not known")
              (URLError "[Errno -2] Name or service not known")
              eq_refl Hcfg eq_refl eq_refl eq_refl eq_refl
              Hcfg eq_refl eq_refl eq_refl eq_refl)
    as (_ & H1 & _ & H3 & H4 & H5).
  split; [exact H1 |]. split; [exact H4 |]. split; [exact H5 |].
  fold r in H3. rewrite H3. reflexivity.
Defined.

(** C1: the code, at a price with a thousands separator.  When the first
    price node reads a text with a comma, the fetch does not strip it: the
    misspelt [replae] raises an [AttributeError], which the handler for
    [ValueError] does not catch; the call raises and no price is stored. *)
Theorem price_with_separator_faults
    (float : string → option spec_float)
    (Request : pyval → option header_map → result request)
    (BeautifulSoup : bytes → list node)
    (s : session) (w : world) (l : loc) (d : dict) (url : pyval)
    (req : request) (page : bytes) (str_price : string) (rest : list string) :
  data s = Some l → heap w !! l = Some d → d !! "url" = Some url →
  Request url (headers s) = Ok req → urlopen w req = Ok page →
  price_lines BeautifulSoup page = str_price :: rest →
  contains_char "," str_price = true →
  let r := get_latest_price float Request BeautifulSoup s w in
  outcome r = Raise (AttributeError "'str' object has no attribute 'replae'")
  ∧ latest_price (self_after r) = latest_price s
  ∧ world_after r = w.
Proof.
  intros Hdata Hheap Hurl Hreq Hopen Hlines Hcomma r. subst r.
  erewrite price_with_comma by eassumption. repeat split.
Qed.

Lemma price_with_separator_faults_witness :
  let w := Demo.world0 Demo.body Demo.body in
  let r := get_latest_price Demo.float Demo.Request
             (λ _, Demo.page_showing "1,234.56") (Demo.configured w) w in
  price_lines (λ _, Demo.page_showing "1,234.56") [] = ["1,234.56"]
  ∧ outcome r = Raise (AttributeError "'str' object has no attribute 'replae'")
  ∧ latest_price (self_after r) = VInt 0.
Proof.
  intros w r.
  assert (Hcfg : heap w !! Demo.cfd = Some CFD) by apply lookup_singleton_eq.
  destruct (price_with_separator_faults Demo.float Demo.Request
              (λ _, Demo.page_showing "1,234.56") (Demo.configured w) w
              Demo.cfd CFD
              (VStr "https://www.investing.com/commodities/london-gas-oil-historical-data")
              {| full_url := "https://www.investing.com/commodities/london-gas-oil-historical-data";
                 req_headers := HEADERS |}
              [] "1,234.56" []
              eq_refl Hcfg eq_refl eq_refl eq_refl eq_refl eq_refl)
    as (H1 & H2 & _).
  split; [reflexivity |]. split; [exact H1 | exact H2].
Defined.

(** C4: the code, at a page without the price node.  When no [span] carries
    the marker, [lines[0]] raises an [IndexError], which the handler for
    [ValueError] does not catch: the call raises to the caller with nothing
    printed; [latest_price] is not written. *)
Theorem missing_price_node_raises
    (float : string → option spec_float)
    (Request : pyval → option header_map → result request)
    (BeautifulSoup : bytes → list node)
    (s : session) (w : world) (l : loc) (d : dict) (url : pyval)
    (req : request) (page : bytes) :
  data s = Some l → heap w !! l = Some d → d !! "url" = Some url →
  Request url (headers s) = Ok req → urlopen w req = Ok page →
  find_all (BeautifulSoup page) "span" "last_last" = [] →
  let r := get_latest_price float Request BeautifulSoup s w in
  outcome r = Raise (IndexError "list index out of range")
  ∧ latest_price (self_after r) = latest_price s
  ∧ stdout (world_after r) = stdout w.
Proof.
  intros Hdata Hheap Hurl Hreq Hopen Hnone r. subst r.
  erewrite price_node_missing; try eassumption; [repeat split |].
  unfold price_lines. rewrite Hnone. reflexivity.
Qed.

Lemma missing_price_node_raises_witness :
  let w := Demo.world0 Demo.body Demo.body in
  let r := get_latest_price Demo.float Demo.Request
             (λ _, Demo.page_without_price) (Demo.configured w) w in
  outcome r = Raise (IndexError "list index out of range")
  ∧ stdout (world_after r) = [].
Proof.
  intros w r.
  assert (Hcfg : heap w !! Demo.cfd = Some CFD) by apply lookup_singleton_eq.
  destruct (missing_price_node_raises Demo.float Demo.Request
              (λ _, Demo.page_without_price) (Demo.configured w) w
              Demo.cfd CFD
              (VStr "https://www.investing.com/commodities/london-gas-oil-historical-data")
              {| full_url := "https://www.investing.com/commodities/london-gas-oil-historical-data";
                 req_headers := HEADERS |}
              [] eq_refl Hcfg eq_refl eq_refl eq_refl eq_refl)
    as (H1 & _ & H3).
  split; [exact H1 | exact H3].
Defined.

(** ** The historical series *)

Section Historical.

Variable read_html : bytes → result (list DataFrame).
Variables (s : session) (w : world) (l : loc) (d : dict) (body : bytes).
Hypothesis Hdata : data s = Some l.
Hypothesis Hheap : heap w !! l = Some d.
Hypothesis Hpost : post w (api_url s) (Some d) (headers s) = Ok body.

Ltac fetch := unfold get_historical_price; run; rewrite Hdata; cbn;
  rewrite Hheap; cbn; rewrite Hpost; cbn.

Lemma series_fetched (df : DataFrame) (others : list DataFrame) :
  read_html body = Ok (df :: others) →
  get_historical_price read_html s w
  = (Ok df, with_observations (Some df) (with_response (Some body) s), w).
Proof. intros Hread. fetch. rewrite Hread. reflexivity. Qed.

Lemma parser_fault_escapes (e : exn) :
  read_html body = Raise e →
  get_historical_price read_html s w
  = (Raise e, with_response (Some body) s, w).
Proof. intros Hread. fetch. rewrite Hread. reflexivity. Qed.

Lemma empty_table_list_faults :
  read_html body = Ok [] →
  get_historical_price read_html s w
  = (Raise (IndexError "list index out of range"),
     with_response (Some body) s, w).
Proof. intros Hread. fetch. rewrite Hread. reflexivity. Qed.

End Historical.

(** C2, as the code has it: when the table parser finds no table in the
    response body and raises, [get_historical_price] lets that very exception
    reach the caller, unconverted; by then [response] holds the new body,
    while [observations] and the world are as before. *)
Theorem no_table_propagates_parser_exception
    (read_html : bytes → result (list DataFrame))
    (s : session) (w : world) (l : loc) (d : dict) (body : bytes) (e : exn) :
  data s = Some l → heap w !! l = Some d →
  post w (api_url s) (Some d) (headers s) = Ok body →
  read_html body = Raise e →
  let r := get_historical_price read_html s w in
  outcome r = Raise e
  ∧ response (self_after r) = Some body
  ∧ observations (self_after r) = observations s
  ∧ world_after r = w.
Proof.
  intros Hdata Hheap Hpost Hread r. subst r.
  erewrite parser_fault_escapes by eassumption. repeat split.
Qed.

Lemma no_table_propagates_parser_exception_witness :
  let w := Demo.world0 Demo.body Demo.body in
  let r := get_historical_price Demo.read_html_none (Demo.configured w) w in
  outcome r = Raise (ValueError "No tables found")
  ∧ observations (self_after r) = None.
Proof.
  intros w r.
  assert (Hcfg : heap w !! Demo.cfd = Some CFD) by apply lookup_singleton_eq.
  destruct (no_table_propagates_parser_exception Demo.read_html_none
              (Demo.configured w) w Demo.cfd CFD []
              (ValueError "No tables found") eq_refl Hcfg eq_refl eq_refl)
    as (H1 & _ & H3 & _).
  split; [exact H1 | exact H3].
Defined.

(** C2, as the claim states it, fails: on a body without a table the
    exception the caller receives is the one the parser raised, not a typed
    error of the operation's own such as "no tabular data found". *)
Lemma no_table_raw_parser_exception :
  let w := Demo.world0 Demo.body Demo.body in
  let r := get_historical_price Demo.read_html_none (Demo.configured w) w in
  (∃ e : exn, Demo.read_html_none [] = Raise e ∧ outcome r = Raise e)
  ∧ ¬ ∃ c : string, outcome r = Raise (Exn c "no tabular data found").
Proof.
  split.
  - exists (ValueError "No tables found"). split; reflexivity.
  - intros [c H]. vm_compute in H. discriminate H.
Qed.

(** ** The script's scenario *)

(** A price without a separator is converted and stored. *)
Example plain_price_is_stored :
  let w := Demo.world0 Demo.body Demo.body in
  let r := get_latest_price Demo.float Demo.Request
             (λ _, Demo.page_showing "67.45") (Demo.configured w) w in
  outcome r = Ok tt
  ∧ latest_price (self_after r)
    = VFloat (S754_finite false 4746371794783437 (-46)).
Proof. split; vm_compute; reflexivity. Qed.

(** A text that is not a number is reported and the price is kept. *)
Example unparsable_price_is_reported :
  let w := Demo.world0 Demo.body Demo.body in
  let r := get_latest_price Demo.float Demo.Request
             (λ _, Demo.page_showing "n/a") (Demo.configured w) w in
  outcome r = Ok tt
  ∧ latest_price (self_after r) = VInt 0
  ∧ stdout (world_after r) = [OutLine "Fail to parse the latest price"].
Proof. repeat split; vm_compute; reflexivity. Qed.

(** A three-row table is fetched whole and in order. *)
Example three_rows_fetched :
  let w := Demo.world0 Demo.body Demo.body in
  let r := get_historical_price Demo.read_html_table3 (Demo.configured w) w in
  outcome r = Ok Demo.table3
  ∧ observations (self_after r) = Some Demo.table3
  ∧ length (rows Demo.table3) = 3%nat.
Proof. repeat split. Qed.

(** * Further properties of the code *)

(** ** The live-price fetch, path by path *)

(** X1: when the page is fetched and the text of the first price node has no
    comma and converts, that float is stored in [latest_price]; the other
    nodes are not looked at, nothing is printed and nothing else changes. *)
Theorem first_price_node_is_stored
    (float : string → option spec_float)
    (Request : pyval → option header_map → result request)
    (BeautifulSoup : bytes → list node)
    (s : session) (w : world) (l : loc) (d : dict) (url : pyval)
    (req : request) (page : bytes) (str_price : string) (rest : list string)
    (x : spec_float) :
  data s = Some l → heap w !! l = Some d → d !! "url" = Some url →
  Request url (headers s) = Ok req → urlopen w req = Ok page →
  price_lines BeautifulSoup page = str_price :: rest →
  contains_char "," str_price = false → float str_price = Some x →
  get_latest_price float Request BeautifulSoup s w
  = (Ok tt, with_latest_price (VFloat x) s, w).
Proof. intros. eapply price_parsed; eassumption. Qed.

Lemma first_price_node_is_stored_witness :
  let w := Demo.world0 Demo.body Demo.body in
  let soup := λ _ : bytes,
    (Demo.page_showing "67.45" ++ Demo.page_showing "1,234.56")%list in
  get_latest_price Demo.float Demo.Request soup (Demo.configured w) w
  = (Ok tt,
     with_latest_price (VFloat (S754_finite false 4746371794783437 (-46)))
       (Demo.configured w), w).
Proof.
  intros w soup.
  apply (first_price_node_is_stored Demo.float Demo.Request soup
           (Demo.configured w) w Demo.cfd CFD
           (VStr "https://www.investing.com/commodities/london-gas-oil-historical-data")
           {| full_url := "https://www.investing.com/commodities/london-gas-oil-historical-data";
              req_headers := HEADERS |}
           [] "67.45" ["1,234.56"]);
    first [apply lookup_singleton_eq | reflexivity].
Defined.

(** X2: when the text of the first price node has no comma and [float]
    rejects it, the fetch prints "Fail to parse the latest price" and returns
    normally with the session unchanged. *)
Theorem rejected_price_is_reported
    (float : string → option spec_float)
    (Request : pyval → option header_map → result request)
    (BeautifulSoup : bytes → list node)
    (s : session) (w : world) (l : loc) (d : dict) (url : pyval)
    (req : request) (page : bytes) (str_price : string) (rest : list string) :
  data s = Some l → heap w !! l = Some d → d !! "url" = Some url →
  Request url (headers s) = Ok req → urlopen w req = Ok page →
  price_lines BeautifulSoup page = str_price :: rest →
  contains_char "," str_price = false → float str_price = None →
  get_latest_price float Request BeautifulSoup s w
  = (Ok tt, s,
     with_stdout (stdout w ++ [OutLine "Fail to parse the latest price"]) w).
Proof. intros. eapply price_not_a_number; eassumption. Qed.

Lemma rejected_price_is_reported_witness :
  let w := Demo.world0 Demo.body Demo.body in
  get_latest_price Demo.float Demo.Request (λ _, Demo.page_showing "n/a")
    (Demo.configured w) w
  = (Ok tt, Demo.configured w,
     with_stdout [OutLine "Fail to parse the latest price"] w).
Proof.
  intros w.
  apply (rejected_price_is_reported Demo.float Demo.Request
           (λ _, Demo.page_showing "n/a") (Demo.configured w) w Demo.cfd CFD
           (VStr "https://www.investing.com/commodities/london-gas-oil-historical-data")
           {| full_url := "https://www.investing.com/commodities/london-gas-oil-historical-data";
              req_headers := HEADERS |}
           [] "n/a" []);
    first [apply lookup_singleton_eq | reflexivity].
Defined.

(** X3: only a [URLError] is handled around the request: any other exception
    of [urlopen(req).read()] reaches the caller, with nothing printed and
    nothing changed. *)
Theorem other_transport_faults_escape
    (float : string → option spec_float)
    (Request : pyval → option header_map → result request)
    (BeautifulSoup : bytes → list node)
    (s : session) (w : world) (l : loc) (d : dict) (url : pyval)
    (req : request) (e : exn) :
  data s = Some l → heap w !! l = Some d → d !! "url" = Some url →
  Request url (headers s) = Ok req →
  urlopen w req = Raise e → is_URLError e = false →
  get_latest_price float Request BeautifulSoup s w = (Raise e, s, w).
Proof. intros. eapply transport_fault_escapes; eassumption. Qed.

Lemma other_transport_faults_escape_witness :
  let timeout : exn := Exn "TimeoutError" "The read operation timed out" in
  let w := Demo.world0 (Raise timeout) Demo.body in
  get_latest_price Demo.float Demo.Request (λ _, Demo.page_showing "67.45")
    (Demo.configured w) w
  = (Raise timeout, Demo.configured w, w).
Proof.
  intros timeout w.
  apply (other_transport_faults_escape Demo.float Demo.Request
           (λ _, Demo.page_showing "67.45") (Demo.configured w) w Demo.cfd CFD
           (VStr "https://www.investing.com/commodities/london-gas-oil-historical-data")
           {| full_url := "https://www.investing.com/commodities/london-gas-oil-historical-data";
              req_headers := HEADERS |});
    first [apply lookup_singleton_eq | reflexivity].
Defined.

(** X4: on a configuration without a [url] key the fetch raises
    [KeyError('url')] before any request is built: the answers of the remote
    site play no part and nothing changes. *)
Theorem live_price_needs_url_key
    (float : string → option spec_float)
    (Request : pyval → option header_map → result request)
    (BeautifulSoup : bytes → list node)
    (s : session) (w : world) (l : loc) (d : dict) :
  data s = Some l → heap w !! l = Some d → d !! "url" = None →
  get_latest_price float Request BeautifulSoup s w
  = (Raise (KeyError "'url'"), s, w).
Proof.
  intros Hdata Hheap Hurl. unfold get_latest_price. run.
  rewrite Hdata; cbn. rewrite Hheap, Hurl. reflexivity.
Qed.

Lemma live_price_needs_url_key_witness :
  let w := with_heap {[ Demo.cfd := delete "url" CFD ]}
             (Demo.world0 Demo.body Demo.body) in
  get_latest_price Demo.float Demo.Request (λ _, Demo.page_showing "67.45")
    (Demo.configured w) w
  = (Raise (KeyError "'url'"), Demo.configured w, w).
Proof.
  intros w.
  apply (live_price_needs_url_key Demo.float Demo.Request
           (λ _, Demo.page_showing "67.45") (Demo.configured w) w Demo.cfd
           (delete "url" CFD));
    first [apply lookup_singleton_eq | reflexivity].
Defined.

(** X5: an exception of the request constructor (it is called outside the
    [try]) reaches the caller; the site is not contacted, nothing is printed
    and nothing changes. *)
Theorem request_fault_escapes
    (float : string → option spec_float)
    (Request : pyval → option header_map → result request)
    (BeautifulSoup : bytes → list node)
    (s : session) (w : world) (l : loc) (d : dict) (url : pyval) (e : exn) :
  data s = Some l → heap w !! l = Some d → d !! "url" = Some url →
  Request url (headers s) = Raise e →
  get_latest_price float Request BeautifulSoup s w = (Raise e, s, w).
Proof.
  intros Hdata Hheap Hurl Hreq. unfold get_latest_price. run.
  rewrite Hdata; cbn. rewrite Hheap, Hurl; cbn. rewrite Hreq. reflexivity.
Qed.

Lemma request_fault_escapes_witness :
  let w := Demo.world0 Demo.body Demo.body in
  let s := with_data (Some Demo.cfd) (__init__ "" w) in
  get_latest_price Demo.float Demo.Request (λ _, Demo.page_showing "67.45") s w
  = (Raise (AttributeError "'NoneType' object has no attribute 'items'"), s, w).
Proof.
  intros w s.
  apply (request_fault_escapes Demo.float Demo.Request
           (λ _, Demo.page_showing "67.45") s w Demo.cfd CFD
           (VStr "https://www.investing.com/commodities/london-gas-oil-historical-data"));
    first [apply lookup_singleton_eq | reflexivity].
Defined.

(** ** The historical fetch, path by path *)

(** X6: when the site answers and the parser finds tables, the first one is
    returned and stored in [observations], replacing what was there; the body
    is kept in [response]; the dictionaries, the console and the files are
    untouched. *)
Theorem first_table_becomes_observations
    (read_html : bytes → result (list DataFrame))
    (s : session) (w : world) (l : loc) (d : dict) (body : bytes)
    (df : DataFrame) (others : list DataFrame) :
  data s = Some l → heap w !! l = Some d →
  post w (api_url s) (Some d) (headers s) = Ok body →
  read_html body = Ok (df :: others) →
  get_historical_price read_html s w
  = (Ok df, with_observations (Some df) (with_response (Some body) s), w).
Proof. intros. eapply series_fetched; eassumption. Qed.

Lemma first_table_becomes_observations_witness :
  let w := Demo.world0 Demo.body Demo.body in
  let s := with_observations (Some Demo.table1) (Demo.configured w) in
  let r := get_historical_price (λ _, Ok [Demo.table3; Demo.table1]) s w in
  outcome r = Ok Demo.table3
  ∧ observations (self_after r) = Some Demo.table3
  ∧ world_after r = w.
Proof.
  intros w s r. subst r.
  rewrite (first_table_becomes_observations
             (λ _, Ok [Demo.table3; Demo.table1]) s w Demo.cfd CFD []
             Demo.table3 [Demo.table1] eq_refl
             (lookup_singleton_eq _ _) eq_refl eq_refl).
  repeat split.
Defined.

(** X7: an exception of [requests.post] reaches the caller and leaves the
    session as it was: [response] and [observations] keep their old values. *)
Theorem post_fault_leaves_session
    (read_html : bytes → result (list DataFrame))
    (s : session) (w : world) (l : loc) (d : dict) (e : exn) :
  data s = Some l → heap w !! l = Some d →
  post w (api_url s) (Some d) (headers s) = Raise e →
  get_historical_price read_html s w = (Raise e, s, w).
Proof.
  intros Hdata Hheap Hpost. unfold get_historical_price. run.
  rewrite Hdata; cbn. rewrite Hheap; cbn. rewrite Hpost. reflexivity.
Qed.

Lemma post_fault_leaves_session_witness :
  let e := Exn "ConnectionError" "Max retries exceeded" in
  let w := Demo.world0 Demo.body (Raise e) in
  let s := with_observations (Some Demo.table1) (Demo.configured w) in
  get_historical_price Demo.read_html_table3 s w = (Raise e, s, w).
Proof.
  intros e w s.
  apply (post_fault_leaves_session Demo.read_html_table3 s w Demo.cfd CFD e
           eq_refl (lookup_singleton_eq _ _) eq_refl).
Defined.

(** X8: the form that the fetch posts is the caller's dictionary as the
    setters have left it: after [set_form_data] and any setter calls, the
    fetch succeeds exactly on the answer of the site to that dictionary. *)
Theorem fetch_posts_the_written_mapping
    (read_html : bytes → result (list DataFrame)) (K : klass)
    (cs : list setter) (cfg : loc) (d : dict) (s : session) (w : world)
    (body : bytes) (df : DataFrame) (others : list DataFrame) :
  heap w !! cfg = Some d →
  post w (api_url s) (Some (foldl (writes_of K) d cs)) (headers s) = Ok body →
  read_html body = Ok (df :: others) →
  let r := (set_form_data (Some cfg);; calls K cs;;
            get_historical_price read_html) s w in
  outcome r = Ok df
  ∧ observations (self_after r) = Some df
  ∧ response (self_after r) = Some body.
Proof.
  intros Hcfg Hpost Hread r. subst r.
  unfold set_form_data, mbind, M_bind, get_self, put_self.
  rewrite (calls_write K cs cfg d (with_data (Some cfg) s) w eq_refl Hcfg).
  erewrite series_fetched; [repeat split | reflexivity | | exact Hpost | exact Hread].
  apply lookup_insert_eq.
Qed.

Lemma fetch_posts_the_written_mapping_witness :
  let w := Demo.strict_world Demo.body in
  let K := IndexHistoricalData w in
  let s := with_headers (Some HEADERS) (__init__ "" w) in
  let configure := set_form_data (Some Demo.cfd);;
                   calls K [SetFrequency (VStr "Daily");
                            SetSortOrder (VStr "DESC");
                            SetDateRange (VStr "1/1/2017") None] in
  outcome ((configure;; get_historical_price Demo.read_html_table3) s w)
  = Ok Demo.table3
  ∧ outcome ((set_form_data (Some Demo.cfd);;
              get_historical_price Demo.read_html_table3) s w)
    = Raise (Exn "HTTPError" "400 Bad Request").
Proof.
  intros w K s configure.
  destruct (fetch_posts_the_written_mapping Demo.read_html_table3 K
              [SetFrequency (VStr "Daily"); SetSortOrder (VStr "DESC");
               SetDateRange (VStr "1/1/2017") None]
              Demo.cfd CFD s w [] Demo.table3 []
              (lookup_singleton_eq _ _) eq_refl eq_refl) as (H & _).
  split; [exact H | reflexivity].
Defined.

(** X9: unlike the setters, the historical fetch does not need a
    configuration: with the mapping unset it posts no form ([data=None]) and
    stores the first table of the answer. *)
Theorem unconfigured_fetch_posts_no_form
    (read_html : bytes → result (list DataFrame))
    (s : session) (w : world) (body : bytes)
    (df : DataFrame) (others : list DataFrame) :
  data s = None →
  post w (api_url s) None (headers s) = Ok body →
  read_html body = Ok (df :: others) →
  get_historical_price read_html s w
  = (Ok df, with_observations (Some df) (with_response (Some body) s), w).
Proof.
  intros Hdata Hpost Hread. unfold get_historical_price. run.
  rewrite Hdata; cbn. rewrite Hpost; cbn. rewrite Hread. reflexivity.
Qed.

Lemma unconfigured_fetch_posts_no_form_witness :
  let w := Demo.world0 Demo.body Demo.body in
  let s := __init__ "https://www.investing.com/instruments/HistoricalDataAjax" w in
  outcome (get_historical_price Demo.read_html_table3 s w) = Ok Demo.table3.
Proof.
  intros w s.
  rewrite (unconfigured_fetch_posts_no_form Demo.read_html_table3 s w []
             Demo.table3 [] eq_refl eq_refl eq_refl).
  reflexivity.
Defined.

(** ** The setters *)

(** X10: a second [set_form_data] replaces the mapping, it does not merge:
    the items written through the first configuration stay in the first
    dictionary only, and the later setter calls write into the second one
    only. *)
Theorem second_config_replaces_first (K : klass) (cs1 cs2 : list setter)
    (a b : loc) (da db : dict) (s : session) (w : world) :
  heap w !! a = Some da → heap w !! b = Some db → a ≠ b →
  let r := (set_form_data (Some a);; calls K cs1;;
            set_form_data (Some b);; calls K cs2) s w in
  outcome r = Ok tt
  ∧ data (self_after r) = Some b
  ∧ heap (world_after r) !! a = Some (foldl (writes_of K) da cs1)
  ∧ heap (world_after r) !! b = Some (foldl (writes_of K) db cs2).
Proof.
  intros Ha Hb Hab r. subst r.
  unfold set_form_data, mbind, M_bind, get_self, put_self.
  rewrite (calls_write K cs1 a da (with_data (Some a) s) w eq_refl Ha).
  erewrite (calls_write K cs2 b db); [| reflexivity |].
  - unfold outcome, self_after, world_after; cbn.
    split; [reflexivity |]. split; [reflexivity |]. split.
    + rewrite lookup_insert_ne by congruence. apply lookup_insert_eq.
    + apply lookup_insert_eq.
  - cbn. rewrite lookup_insert_ne by done. exact Hb.
Qed.

Lemma second_config_replaces_first_witness :
  let w := with_heap (<[Demo.brent := Demo.BRENT]> {[ Demo.cfd := CFD ]})
             (Demo.world0 Demo.body Demo.body) in
  let K := IndexHistoricalData w in
  let r := (set_form_data (Some Demo.cfd);; calls K [SetFrequency (VStr "Daily")];;
            set_form_data (Some Demo.brent);; calls K [SetSortOrder (VStr "ASC")])
             (__init__ "" w) w in
  heap (world_after r) !! Demo.cfd = Some (<["frequency" := VStr "Daily"]> CFD)
  ∧ heap (world_after r) !! Demo.brent
    = Some (<["sort_ord" := VStr "ASC"]> Demo.BRENT).
Proof.
  intros w K r.
  destruct (second_config_replaces_first K [SetFrequency (VStr "Daily")]
              [SetSortOrder (VStr "ASC")] Demo.cfd Demo.brent CFD Demo.BRENT
              (__init__ "" w) w eq_refl eq_refl ltac:(discriminate))
    as (_ & _ & H3 & H4).
  split; [exact H3 | exact H4].
Defined.

(** X11: a setter call that raises has written nothing: the session and the
    world are as before.  In particular [set_start_end_date] never leaves a
    start date without its end date. *)
Theorem failed_setter_writes_nothing (K : klass) (c : setter)
    (s : session) (w : world) (e : exn) :
  outcome (call K c s w) = Raise e →
  self_after (call K c s w) = s ∧ world_after (call K c s w) = w.
Proof.
  destruct (data s) as [l |] eqn:Hdata.
  - destruct (heap w !! l) as [d |] eqn:Hheap.
    + rewrite (call_writes K c l d s w Hdata Hheap). discriminate.
    + intros _. destruct c; unfold call; run; rewrite Hdata; cbn;
        rewrite Hheap; split; reflexivity.
  - intros _. destruct c; unfold call; run; rewrite Hdata; split; reflexivity.
Qed.

Lemma failed_setter_writes_nothing_witness :
  let w := Demo.world0 Demo.body Demo.body in
  let K := IndexHistoricalData w in
  let r := call K (SetDateRange (VStr "1/1/2017") None) (__init__ "" w) w in
  self_after r = __init__ "" w ∧ world_after r = w.
Proof.
  intros w K r.
  exact (failed_setter_writes_nothing K (SetDateRange (VStr "1/1/2017") None)
           (__init__ "" w) w
           (TypeError "'NoneType' object does not support item assignment")
           eq_refl).
Defined.

(** X12: what a setter assigns can be read back from the caller's
    dictionary: the frequency, the sort order, the start date, and as end
    date the one given or else the default of the class. *)
Theorem setter_values_read_back (K : klass) (s : session) (w : world)
    (l : loc) (d : dict) (v start : pyval) (ending : option pyval) :
  data s = Some l → heap w !! l = Some d →
  let read (r : result unit * session * world) (k : string) :=
    heap (world_after r) !! l ≫= (.!! k) in
  read (set_time_frame_frequency v s w) "frequency" = Some v
  ∧ read (set_sort_order v s w) "sort_ord" = Some v
  ∧ read (set_start_end_date K start ending s w) "st_date" = Some start
  ∧ read (set_start_end_date K start ending s w) "end_date"
    = Some (default (ending_date_default K) ending).
Proof.
  intros Hdata Hheap read. subst read. cbv beta.
  pose proof (call_writes K (SetFrequency v) l d s w Hdata Hheap) as E1.
  pose proof (call_writes K (SetSortOrder v) l d s w Hdata Hheap) as E2.
  pose proof (call_writes K (SetDateRange start ending) l d s w Hdata Hheap) as E3.
  cbn [call] in E1, E2, E3. rewrite E1, E2, E3.
  unfold world_after; cbn. rewrite !lookup_insert_eq; cbn.
  rewrite !lookup_insert_eq.
  rewrite lookup_insert_ne by discriminate. rewrite lookup_insert_eq.
  repeat split.
Qed.

Lemma setter_values_read_back_witness :
  let w := Demo.world0 Demo.body Demo.body in
  let K := IndexHistoricalData w in
  let r := set_start_end_date K (VStr "1/1/2017") (Some (VStr "12/31/2018"))
             (Demo.configured w) w in
  heap (world_after r) !! Demo.cfd ≫= (.!! "st_date") = Some (VStr "1/1/2017")
  ∧ heap (world_after r) !! Demo.cfd ≫= (.!! "end_date")
    = Some (VStr "12/31/2018").
Proof.
  intros w K r.
  destruct (setter_values_read_back K (Demo.configured w) w Demo.cfd CFD
              VNone (VStr "1/1/2017") (Some (VStr "12/31/2018"))
              eq_refl (lookup_singleton_eq _ _)) as (_ & _ & H3 & H4).
  split; [exact H3 | exact H4].
Defined.

Lemma two_calls (K : klass) (l : loc) (d : dict) (s : session) (w : world)
    (c1 c2 : setter) :
  data s = Some l → heap w !! l = Some d →
  (call K c1;; call K c2) s w
  = (Ok tt, s,
     with_heap (<[l := writes_of K (writes_of K d c1) c2]> (heap w)) w).
Proof.
  intros Hdata Hheap. unfold mbind, M_bind.
  rewrite (call_writes K c1 l d s w Hdata Hheap).
  erewrite call_writes; [| exact Hdata | apply lookup_insert_eq].
  cbn. rewrite insert_insert_eq. reflexivity.
Qed.

(** X13: setters of different fields commute, and of two calls of the same
    setter the last one wins; both hold on any session, configured or not. *)
Theorem setters_commute_and_overwrite (K : klass) (s : session) (w : world)
    (f f' o o' a a' : pyval) (e e' : option pyval) :
  (set_time_frame_frequency f;; set_sort_order o) s w
  = (set_sort_order o;; set_time_frame_frequency f) s w
  ∧ (set_time_frame_frequency f;; set_start_end_date K a e) s w
    = (set_start_end_date K a e;; set_time_frame_frequency f) s w
  ∧ (set_sort_order o;; set_start_end_date K a e) s w
    = (set_start_end_date K a e;; set_sort_order o) s w
  ∧ (set_time_frame_frequency f;; set_time_frame_frequency f') s w
    = set_time_frame_frequency f' s w
  ∧ (set_sort_order o;; set_sort_order o') s w = set_sort_order o' s w
  ∧ (set_start_end_date K a e;; set_start_end_date K a' e') s w
    = set_start_end_date K a' e' s w.
Proof.
  destruct (data s) as [l |] eqn:Hdata;
    [| run; rewrite Hdata; repeat split].
  destruct (heap w !! l) as [d |] eqn:Hheap;
    [| run; rewrite Hdata; cbn; rewrite Hheap; repeat split].
  pose proof (two_calls K l d s w) as T.
  pose proof (λ c, call_writes K c l d s w Hdata Hheap) as C.
  pose proof (T (SetFrequency f) (SetSortOrder o) Hdata Hheap) as T1.
  pose proof (T (SetSortOrder o) (SetFrequency f) Hdata Hheap) as T2.
  pose proof (T (SetFrequency f) (SetDateRange a e) Hdata Hheap) as T3.
  pose proof (T (SetDateRange a e) (SetFrequency f) Hdata Hheap) as T4.
  pose proof (T (SetSortOrder o) (SetDateRange a e) Hdata Hheap) as T5.
  pose proof (T (SetDateRange a e) (SetSortOrder o) Hdata Hheap) as T6.
  pose proof (T (SetFrequency f) (SetFrequency f') Hdata Hheap) as T7.
  pose proof (T (SetSortOrder o) (SetSortOrder o') Hdata Hheap) as T8.
  pose proof (T (SetDateRange a e) (SetDateRange a' e') Hdata Hheap) as T9.
  pose proof (C (SetFrequency f')) as C1.
  pose proof (C (SetSortOrder o')) as C2.
  pose proof (C (SetDateRange a' e')) as C3.
  cbn [call writes_of] in T1, T2, T3, T4, T5, T6, T7, T8, T9, C1, C2, C3.
  rewrite T1, T2, T3, T4, T5, T6, T7, T8, T9, C1, C2, C3.
  rewrite !insert_insert_eq.
  rewrite (insert_insert_ne d "sort_ord" "frequency") by discriminate.
  rewrite (insert_insert_ne _ "frequency" "end_date") by discriminate.
  rewrite (insert_insert_ne d "frequency" "st_date") by discriminate.
  rewrite (insert_insert_ne _ "sort_ord" "end_date") by discriminate.
  rewrite (insert_insert_ne d "sort_ord" "st_date") by discriminate.
  rewrite (insert_insert_ne _ "st_date" "end_date") by discriminate.
  rewrite !insert_insert_eq.
  repeat split.
Qed.

(** ** The presenter and the exporter at their edges *)

(** X14: the export returns normally only when a series is stored and the
    configuration has a text [name]; when either is missing it raises before
    pandas is called: no file is created, nothing is printed, and the session
    and the world are as before. *)
Theorem export_needs_series_and_name (s : session) (w : world) :
  let r := save_historical_data_to_csv s w in
  let ready :=
    ∃ (df : DataFrame) (l : loc) (d : dict) (name : string),
      observations s = Some df ∧ data s = Some l ∧ heap w !! l = Some d
      ∧ d !! "name" = Some (VStr name) in
  (outcome r = Ok tt → ready)
  ∧ (¬ ready → ∃ e : exn, r = (Raise e, s, w)).
Proof.
  cbn zeta. unfold save_historical_data_to_csv. run.
  destruct (observations s) as [df |] eqn:Hobs; cbn.
  2: { split; [discriminate | intros _; eexists; reflexivity]. }
  destruct (data s) as [l |] eqn:Hdata; cbn.
  2: { split; [discriminate | intros _; eexists; reflexivity]. }
  destruct (heap w !! l) as [d |] eqn:Hheap; cbn.
  2: { split; [discriminate | intros _; eexists; reflexivity]. }
  destruct (d !! "name") as [v |] eqn:Hname; cbn.
  2: { split; [discriminate | intros _; eexists; reflexivity]. }
  destruct v as [| z | x | name]; cbn;
    try (split; [discriminate | intros _; eexists; reflexivity]).
  assert (∃ (df0 : DataFrame) (l0 : loc) (d0 : dict) (name0 : string),
            Some df = Some df0 ∧ Some l = Some l0 ∧ heap w !! l0 = Some d0
            ∧ d0 !! "name" = Some (VStr name0)) as Hready
    by (exists df, l, d, name; repeat split; assumption).
  split; [intros _; exact Hready | intros Hn; destruct (Hn Hready)].
Qed.

Lemma export_needs_series_and_name_witness :
  let w := with_heap {[ Demo.cfd := <["name" := VInt 8861]> CFD ]}
             (Demo.world0 Demo.body Demo.body) in
  let s := with_observations (Some Demo.table3) (Demo.configured w) in
  let r := save_historical_data_to_csv s w in
  outcome r
  = Raise (TypeError "unsupported operand type(s) for +: 'int' and 'str'")
  ∧ self_after r = s ∧ world_after r = w.
Proof.
  intros w s r.
  assert (Hn : ¬ ∃ (df : DataFrame) (l : loc) (d : dict) (name : string),
                 observations s = Some df ∧ data s = Some l
                 ∧ heap w !! l = Some d ∧ d !! "name" = Some (VStr name)).
  { intros (df & l & d & name & _ & Hl & Hd & Hname).
    injection Hl as <-. subst w. cbn [heap with_heap] in Hd.
    rewrite lookup_singleton_eq in Hd.
    injection Hd as <-. vm_compute in Hname. discriminate Hname. }
  destruct (proj2 (export_needs_series_and_name s w) Hn) as [e E].
  split; [reflexivity |]. fold r in E. rewrite E. split; reflexivity.
Defined.

(** X28: when the write of the series raises, the export raises that
    exception to its caller and does not print the completion message; the
    files are as the failed write left them, untouched if it wrote
    nothing. *)
Theorem failed_write_stops_export (s : session) (w : world) (l : loc)
    (d : dict) (name : string) (df : DataFrame) (e : exn)
    (left_behind : option (list string)) :
  data s = Some l → heap w !! l = Some d → d !! "name" = Some (VStr name) →
  observations s = Some df →
  let path := (name +:+ "_") +:+ strftime (query_time s) "%Y%m%d_%H%M%S"
              +:+ ".csv" in
  to_csv w df path "," true false
  = {| written := left_behind; ending := Raise e |} →
  let r := save_historical_data_to_csv s w in
  outcome r = Raise e
  ∧ self_after r = s
  ∧ stdout (world_after r) = stdout w
  ∧ files (world_after r)
    = match left_behind with
      | Some lines => <[path := lines]> (files w)
      | None => files w
      end.
Proof.
  intros Hdata Hheap Hname Hobs path Hcsv r. subst r path.
  unfold save_historical_data_to_csv.
  erewrite bind_ok by reflexivity. rewrite Hobs, Hdata.
  erewrite bind_ok by (eapply getitem_set; eassumption).
  erewrite bind_ok by reflexivity.
  erewrite bind_raise by (apply df_to_csv_failed; exact Hcsv).
  unfold outcome, self_after, world_after.
  destruct left_behind; cbn; repeat split.
Qed.

Lemma failed_write_stops_export_witness :
  let w := with_heap {[ Demo.cfd := <["name" := VStr "a/b"]> CFD ]}
             (Demo.world0 Demo.body Demo.body) in
  let s := with_observations (Some Demo.table3) (Demo.configured w) in
  let r := save_historical_data_to_csv s w in
  outcome r
  = Raise (Exn "OSError"
             "Cannot save file into a non-existent directory: 'a'")
  ∧ stdout (world_after r) = [] ∧ files (world_after r) = ∅.
Proof.
  intros w s r.
  destruct (failed_write_stops_export s w Demo.cfd
              (<["name" := VStr "a/b"]> CFD) "a/b" Demo.table3
              (Exn "OSError"
                 "Cannot save file into a non-existent directory: 'a'")
              None eq_refl (lookup_singleton_eq _ _) eq_refl eq_refl eq_refl)
    as (H1 & _ & H3 & H4).
  split; [exact H1 |]. split; [exact H3 | exact H4].
Defined.

(** X15: [print_data] reads the [name] before it prints: on an unset mapping
    it raises the [TypeError] of subscripting [None], on a configuration
    without a [name] key it raises [KeyError('name')], and in both cases
    nothing has been printed, whether a series is there or not. *)
Theorem print_data_needs_name (str_float : spec_float → string)
    (s : session) (w : world) :
  (data s = None →
   print_data str_float s w
   = (Raise (TypeError "'NoneType' object is not subscriptable"), s, w))
  ∧ (∀ (l : loc) (d : dict),
       data s = Some l → heap w !! l = Some d → d !! "name" = None →
       print_data str_float s w = (Raise (KeyError "'name'"), s, w)).
Proof.
  split.
  - intros Hdata. unfold print_data. run. rewrite Hdata. reflexivity.
  - intros l d Hdata Hheap Hname. unfold print_data. run.
    rewrite Hdata; cbn. rewrite Hheap, Hname. reflexivity.
Qed.

Lemma print_data_needs_name_witness :
  let w := with_heap {[ Demo.cfd := delete "name" CFD ]}
             (Demo.world0 Demo.body Demo.body) in
  let s := with_observations (Some Demo.table3) (Demo.configured w) in
  print_data Demo.str_float s w = (Raise (KeyError "'name'"), s, w)
  ∧ print_data Demo.str_float (__init__ "" w) w
    = (Raise (TypeError "'NoneType' object is not subscriptable"),
       __init__ "" w, w).
Proof.
  intros w s. split.
  - exact (proj2 (print_data_needs_name Demo.str_float s w) Demo.cfd
             (delete "name" CFD) eq_refl (lookup_singleton_eq _ _) eq_refl).
  - exact (proj1 (print_data_needs_name Demo.str_float (__init__ "" w) w)
             eq_refl).
Defined.



(** ** What no sequence of calls does *)

Lemma written_by_setters_refl (d : dict) : written_by_setters d d.
Proof. intros k. split; intros; [reflexivity | assumption]. Qed.

Lemma written_by_setters_trans (d1 d2 d3 : dict) :
  written_by_setters d1 d2 → written_by_setters d2 d3 →
  written_by_setters d1 d3.
Proof.
  intros H12 H23 k. destruct (H12 k) as [A1 B1], (H23 k) as [A2 B2].
  split; [intros Hk; rewrite A2, A1 by exact Hk; reflexivity | auto].
Qed.

Lemma written_by_setters_call (K : klass) (d : dict) (c : setter) :
  written_by_setters d (writes_of K d c).
Proof.
  intros k. split; [apply writes_of_frame |].
  intros Hk. destruct c; cbn; rewrite ?lookup_insert_is_Some.
  - destruct (decide ("frequency" = k)); [left | right]; auto.
  - destruct (decide ("end_date" = k)); [left; assumption | right].
    split; [assumption |].
    destruct (decide ("st_date" = k)); [left | right]; auto.
  - destruct (decide ("sort_ord" = k)); [left | right]; auto.
Qed.

Lemma dictionaries_kept_refl (h : gmap loc dict) : dictionaries_kept h h.
Proof.
  intros l. destruct (h !! l) as [d |] eqn:E; [| reflexivity].
  exists d. split; [reflexivity | apply written_by_setters_refl].
Qed.

Lemma dictionaries_kept_trans (h1 h2 h3 : gmap loc dict) :
  dictionaries_kept h1 h2 → dictionaries_kept h2 h3 → dictionaries_kept h1 h3.
Proof.
  intros H12 H23 l. specialize (H12 l). specialize (H23 l).
  destruct (h1 !! l) as [d1 |].
  - destruct H12 as (d2 & E2 & W12). rewrite E2 in H23.
    destruct H23 as (d3 & E3 & W23). exists d3.
    split; [exact E3 | eapply written_by_setters_trans; eassumption].
  - rewrite H12 in H23. exact H23.
Qed.

Lemma dictionaries_kept_call (K : klass) (c : setter) (l : loc) (d : dict)
    (h : gmap loc dict) :
  h !! l = Some d → dictionaries_kept h (<[l := writes_of K d c]> h).
Proof.
  intros Hl l'. destruct (decide (l = l')) as [<- | Hne].
  - rewrite Hl. exists (writes_of K d c).
    split; [apply lookup_insert_eq | apply written_by_setters_call].
  - rewrite lookup_insert_ne by exact Hne.
    destruct (h !! l') as [d' |]; [| reflexivity].
    exists d'. split; [reflexivity | apply written_by_setters_refl].
Qed.

#[local] Arguments is_URLError : simpl never.

Lemma with_stdout_nil (w : world) : with_stdout (stdout w ++ []) w = w.
Proof. destruct w; cbn. rewrite app_nil_r. reflexivity. Qed.

Section Traces.

Variable float : string → option spec_float.
Variable str_float : spec_float → string.
Variable Request : pyval → option header_map → result request.
Variable BeautifulSoup : bytes → list node.
Variable read_html : bytes → result (list DataFrame).
Variable K : klass.

Ltac grown :=
  first [ exists []; rewrite app_nil_r; reflexivity
        | eexists; reflexivity
        | rewrite <- app_assoc; eexists; reflexivity
        | rewrite <- !app_assoc; eexists; reflexivity ].

Ltac shaped :=
  first [ eexists _, _, []; rewrite with_stdout_nil; split; [reflexivity | eauto]
        | eexists _, _, [_]; split; [reflexivity | eauto]
        | eexists _, _, [_; _]; rewrite <- ?app_assoc; split; [reflexivity | eauto]
        | eexists _, _, [_; _; _]; rewrite <- ?app_assoc; split; [reflexivity | eauto] ].

Lemma get_latest_price_shape (s : session) (w : world) :
  ∃ (o : result unit) (s' : session) (out : list output),
    get_latest_price float Request BeautifulSoup s w
    = (o, s', with_stdout (stdout w ++ out) w)
    ∧ (s' = s ∨ ∃ x : spec_float, s' = with_latest_price (VFloat x) s).
Proof.
  unfold get_latest_price. run.
  destruct (data s) as [l |]; cbn; [| shaped].
  destruct (heap w !! l) as [d |]; cbn; [| shaped].
  destruct (d !! "url") as [url |]; cbn; [| shaped].
  destruct (Request url (headers s)) as [req | e]; cbn; [| shaped].
  destruct (urlopen w req) as [page | e]; cbn.
  - destruct (map get_text (find_all (BeautifulSoup page) "span" "last_last"))
      as [| str_price rest]; cbn; [shaped |].
    destruct (contains_char "," str_price); cbn; [shaped |].
    destruct (float str_price); cbn; shaped.
  - destruct (is_URLError e); cbn; shaped.
Qed.

Lemma get_historical_price_shape (s : session) (w : world) :
  ∃ (o : result DataFrame) (s' : session) (out : list output),
    get_historical_price read_html s w
    = (o, s', with_stdout (stdout w ++ out) w)
    ∧ out = []
    ∧ api_url s' = api_url s ∧ query_time s' = query_time s
    ∧ latest_price s' = latest_price s.
Proof.
  unfold get_historical_price. run.
  destruct (data s) as [l |]; cbn.
  - destruct (heap w !! l) as [d |]; cbn; [| shaped].
    destruct (post w (api_url s) (Some d) (headers s)) as [body | e]; cbn;
      [| shaped].
    destruct (read_html body) as [[| df others] | e]; cbn; shaped.
  - destruct (post w (api_url s) None (headers s)) as [body | e]; cbn;
      [| shaped].
    destruct (read_html body) as [[| df others] | e]; cbn; shaped.
Qed.

Lemma print_data_shape (s : session) (w : world) :
  ∃ (o : result unit) (s' : session) (out : list output),
    print_data str_float s w = (o, s', with_stdout (stdout w ++ out) w)
    ∧ s' = s.
Proof.
  unfold print_data. run.
  destruct (data s) as [l |]; cbn; [| shaped].
  destruct (heap w !! l) as [d |]; cbn; [| shaped].
  destruct (d !! "name") as [name |]; cbn; [| shaped].
  destruct (observations s) as [df |]; cbn; shaped.
Qed.

Lemma save_shape (s : session) (w : world) :
  ∃ (o : result unit) (out : list output) (fs : gmap string (list string)),
    save_historical_data_to_csv s w
    = (o, s, with_stdout (stdout w ++ out) (with_files fs w))
    ∧ dom (files w) ⊆ dom fs.
Proof.
  assert (Hsame : ∀ o : result unit,
            ∃ (o' : result unit) (out : list output)
              (fs : gmap string (list string)),
              (o, s, w) = (o', s, with_stdout (stdout w ++ out) (with_files fs w))
              ∧ dom (files w) ⊆ dom fs).
  { intros o. exists o, [], (files w). split; [| reflexivity].
    destruct w; cbn. rewrite app_nil_r. reflexivity. }
  unfold save_historical_data_to_csv. run.
  destruct (observations s) as [df |]; cbn; [| apply Hsame].
  destruct (data s) as [l |]; cbn; [| apply Hsame].
  destruct (heap w !! l) as [d |]; cbn; [| apply Hsame].
  destruct (d !! "name") as [[| z | x | name] |]; cbn; try apply Hsame.
  destruct (to_csv w df _ "," true false) as [[lines |] [[] | e]]; cbn.
  - eexists _, [_], _. split; [reflexivity | apply dom_insert_subseteq].
  - eexists _, [], (<[_ := lines]> (files w)).
    split; [rewrite app_nil_r; reflexivity | apply dom_insert_subseteq].
  - eexists _, [_], (files w). split; [| reflexivity].
    destruct w; reflexivity.
  - apply Hsame.
Qed.

Lemma invoke_step (m : method) (s : session) (w : world) :
  let r := invoke float str_float Request BeautifulSoup read_html K m s w in
  (api_url (self_after r) = api_url s
   ∧ query_time (self_after r) = query_time s
   ∧ (latest_price (self_after r) = latest_price s
      ∨ ∃ x : spec_float, latest_price (self_after r) = VFloat x))
  ∧ ((∃ out : list output, stdout (world_after r) = (stdout w ++ out)%list)
     ∧ dom (files w) ⊆ dom (files (world_after r))
     ∧ dictionaries_kept (heap w) (heap (world_after r)))
  ∧ (((∀ c : setter, m ≠ Setter c) → heap (world_after r) = heap w)
     ∧ (m ≠ GetLatestPrice → latest_price (self_after r) = latest_price s)
     ∧ (m ≠ GetHistoricalPrice →
        observations (self_after r) = observations s
        ∧ response (self_after r) = response s)
     ∧ (m ≠ SaveCsv → files (world_after r) = files w)).
Proof.
  destruct m as [h | d0 | c | | | |]; cbn zeta; unfold invoke.
  - run. repeat split; auto using dictionaries_kept_refl; grown.
  - run. repeat split; auto using dictionaries_kept_refl; grown.
  - destruct (data s) as [l |] eqn:Hdata;
      [destruct (heap w !! l) as [d |] eqn:Hheap |].
    + rewrite (call_writes K c l d s w Hdata Hheap).
      unfold self_after, world_after; cbn.
      repeat split; auto; try grown.
      * apply dictionaries_kept_call, Hheap.
      * intros Hc. destruct (Hc c eq_refl).
    + destruct c; unfold call; run; rewrite Hdata; cbn; rewrite Hheap; cbn;
        repeat split; auto using dictionaries_kept_refl; grown.
    + destruct c; unfold call; run; rewrite Hdata; cbn;
        repeat split; auto using dictionaries_kept_refl; grown.
  - destruct (get_historical_price_shape s w)
      as (o & s' & out & E & -> & Ha & Hq & Hp).
    unfold mbind, M_bind. rewrite E, with_stdout_nil.
    destruct o; unfold self_after, world_after; cbn;
      repeat split; auto using dictionaries_kept_refl; try grown; congruence.
  - destruct (get_latest_price_shape s w) as (o & s' & out & E & Hs).
    rewrite E. unfold self_after, world_after; cbn.
    destruct Hs as [-> | [x ->]]; cbn;
      repeat split; eauto using dictionaries_kept_refl; congruence.
  - destruct (print_data_shape s w) as (o & s' & out & E & ->).
    rewrite E. unfold self_after, world_after; cbn.
    repeat split; eauto using dictionaries_kept_refl.
  - destruct (save_shape s w) as (o & out & fs & E & Hfs). rewrite E.
    unfold self_after, world_after; cbn.
    repeat split; eauto using dictionaries_kept_refl; congruence.
Qed.

Lemma after_kept (es : list event) :
  ∀ (s : session) (w : world),
    let s' := (after float str_float Request BeautifulSoup read_html K es s w).1 in
    let w' := (after float str_float Request BeautifulSoup read_html K es s w).2 in
    api_url s' = api_url s
    ∧ query_time s' = query_time s
    ∧ (latest_price s' = latest_price s
       ∨ ∃ x : spec_float, latest_price s' = VFloat x)
    ∧ (∃ out : list output, stdout w' = (stdout w ++ out)%list)
    ∧ dom (files w) ⊆ dom (files w')
    ∧ dictionaries_kept (heap w) (heap w').
Proof.
  induction es as [| [m | t get pst csv] es IH]; intros s w; cbn zeta.
  - cbn. repeat split; auto using dictionaries_kept_refl.
    exists []. rewrite app_nil_r. reflexivity.
  - cbn [after].
    destruct (invoke_step m s w) as ((A1 & A2 & A3) & (B1 & B2 & B3) & _).
    specialize (IH (self_after (invoke float str_float Request BeautifulSoup read_html K m s w))
                   (world_after (invoke float str_float Request BeautifulSoup read_html K m s w))).
    cbn zeta in IH. destruct IH as (I1 & I2 & I3 & I4 & I5 & I6).
    split; [congruence |]. split; [congruence |].
    split; [destruct I3 as [I3 | I3]; [rewrite I3; exact A3 | right; exact I3] |].
    split.
    { destruct B1 as [o1 E1], I4 as [o2 E2]. exists (o1 ++ o2)%list.
      rewrite E2, E1, app_assoc. reflexivity. }
    split; [exact (transitivity B2 I5) |].
    eapply dictionaries_kept_trans; eassumption.
  - cbn [after]. exact (IH s (with_env t get pst csv w)).
Qed.

Lemma after_unwritten (es : list event) :
  ∀ (s : session) (w : world),
    let s' := (after float str_float Request BeautifulSoup read_html K es s w).1 in
    let w' := (after float str_float Request BeautifulSoup read_html K es s w).2 in
    ((∀ c : setter, Call (Setter c) ∉ es) → heap w' = heap w)
    ∧ (Call GetLatestPrice ∉ es → latest_price s' = latest_price s)
    ∧ (Call GetHistoricalPrice ∉ es →
       observations s' = observations s ∧ response s' = response s)
    ∧ (Call SaveCsv ∉ es → files w' = files w).
Proof.
  induction es as [| [m | t get pst csv] es IH]; intros s w; cbn zeta.
  - cbn. split; [| split; [| split]]; intros _; repeat split.
  - cbn [after].
    destruct (invoke_step m s w) as (_ & _ & (C1 & C2 & C3 & C4)).
    specialize (IH (self_after (invoke float str_float Request BeautifulSoup read_html K m s w))
                   (world_after (invoke float str_float Request BeautifulSoup read_html K m s w))).
    cbn zeta in IH. destruct IH as (I1 & I2 & I3 & I4).
    split; [| split; [| split]].
    + intros H. rewrite I1, C1; [reflexivity | |].
      * intros c ->. apply (H c). left.
      * intros c Hc. apply (H c). right. exact Hc.
    + intros H. apply not_elem_of_cons in H as [H1 H2].
      rewrite (I2 H2). apply C2. congruence.
    + intros H. apply not_elem_of_cons in H as [H1 H2].
      destruct (I3 H2) as [E1 E2]. rewrite E1, E2. apply C3. congruence.
    + intros H. apply not_elem_of_cons in H as [H1 H2].
      rewrite (I4 H2). apply C4. congruence.
  - cbn [after].
    specialize (IH s (with_env t get pst csv w)). cbn zeta in IH.
    destruct IH as (I1 & I2 & I3 & I4).
    split; [| split; [| split]]; intros H.
    + apply I1. intros c Hc. apply (H c). right. exact Hc.
    + apply I2. apply not_elem_of_cons in H as [_ H]. exact H.
    + apply I3. apply not_elem_of_cons in H as [_ H]. exact H.
    + apply I4. apply not_elem_of_cons in H as [_ H]. exact H.
Qed.

(** X17: whatever methods are called and however the surroundings change,
    the endpoint and the query time of a session stay those of its
    construction: no method refreshes [query_time]. *)
Theorem construction_values_never_change (es : list event) (s : session)
    (w : world) :
  let s' := (after float str_float Request BeautifulSoup read_html K es s w).1 in
  api_url s' = api_url s ∧ query_time s' = query_time s.
Proof.
  destruct (after_kept es s w) as (H1 & H2 & _). split; assumption.
Qed.

(** X18: after any trace [latest_price] is the value it had or a float: on a
    session that started from the constructor it is the integer [0] or a
    float stored by a successful fetch. *)
Theorem latest_price_is_kept_or_float (es : list event) (s : session)
    (w : world) :
  let s' := (after float str_float Request BeautifulSoup read_html K es s w).1 in
  latest_price s' = latest_price s ∨ ∃ x : spec_float, latest_price s' = VFloat x.
Proof.
  destruct (after_kept es s w) as (_ & _ & H3 & _). exact H3.
Qed.

(** X19: the session only ever adds to its output: what was on the console
    stays, in order, before what is printed later, and no file of the
    working directory disappears. *)
Theorem output_is_append_only (es : list event) (s : session) (w : world) :
  let w' := (after float str_float Request BeautifulSoup read_html K es s w).2 in
  (∃ out : list output, stdout w' = (stdout w ++ out)%list)
  ∧ dom (files w) ⊆ dom (files w').
Proof.
  destruct (after_kept es s w) as (_ & _ & _ & H4 & H5 & _). split; assumption.
Qed.

(** X20: across any trace every dictionary of the heap stays where it is,
    loses no key, and keeps the value of every key other than [frequency],
    [st_date], [end_date] and [sort_ord]: the identifiers, the name and the
    url of a configuration are never modified by the session. *)
Theorem session_writes_only_setter_keys (es : list event) (s : session)
    (w : world) (l : loc) (d : dict) :
  heap w !! l = Some d →
  let w' := (after float str_float Request BeautifulSoup read_html K es s w).2 in
  ∃ d' : dict,
    heap w' !! l = Some d'
    ∧ (∀ k : string, k ∉ setter_keys → d' !! k = d !! k)
    ∧ (∀ k : string, is_Some (d !! k) → is_Some (d' !! k)).
Proof.
  intros Hl. destruct (after_kept es s w) as (_ & _ & _ & _ & _ & H6).
  specialize (H6 l). rewrite Hl in H6. destruct H6 as (d' & E & W).
  exists d'. split; [exact E |]. split; intros k; apply (W k).
Qed.

(** X21: only the setters write dictionaries: a trace without setter calls,
    whatever it fetches, prints or exports, leaves the heap as it was. *)
Theorem only_setters_write_dictionaries (es : list event) (s : session)
    (w : world) :
  (∀ c : setter, Call (Setter c) ∉ es) →
  heap (after float str_float Request BeautifulSoup read_html K es s w).2
  = heap w.
Proof. apply (after_unwritten es s w). Qed.

(** X22: each result has one writer: without a call of [get_latest_price]
    the price is kept, without a call of [get_historical_price] the series
    and the response are kept, and without a call of the export the files
    are kept. *)
Theorem results_have_one_writer (es : list event) (s : session) (w : world) :
  let s' := (after float str_float Request BeautifulSoup read_html K es s w).1 in
  let w' := (after float str_float Request BeautifulSoup read_html K es s w).2 in
  (Call GetLatestPrice ∉ es → latest_price s' = latest_price s)
  ∧ (Call GetHistoricalPrice ∉ es →
     observations s' = observations s ∧ response s' = response s)
  ∧ (Call SaveCsv ∉ es → files w' = files w).
Proof.
  destruct (after_unwritten es s w) as (_ & H2 & H3 & H4).
  split; [exact H2 | split; [exact H3 | exact H4]].
Qed.

End Traces.

(** ** The script *)

Lemma print_data_series (str_float : spec_float → string) (s : session)
    (w : world) (l : loc) (d : dict) (name : pyval) (df : DataFrame) :
  data s = Some l → heap w !! l = Some d → d !! "name" = Some name →
  observations s = Some df →
  print_data str_float s w
  = (Ok tt, s,
     with_stdout (stdout w ++ [summary_line str_float s name; header_line;
                               OutFrame (head 10 df)]) w).
Proof.
  intros Hdata Hheap Hname Hobs. unfold print_data. run.
  rewrite Hdata; cbn. rewrite Hheap, Hname; cbn. rewrite Hobs; cbn.
  rewrite <- !app_assoc. reflexivity.
Qed.

Lemma url_not_setter_key : "url" ∉ setter_keys.
Proof. unfold setter_keys. rewrite !not_elem_of_cons. repeat split; (discriminate || apply not_elem_of_nil). Qed.

Lemma name_not_setter_key : "name" ∉ setter_keys.
Proof. unfold setter_keys. rewrite !not_elem_of_cons. repeat split; (discriminate || apply not_elem_of_nil). Qed.

Section MainScript.

Variable float : string → option spec_float.
Variable str_float : spec_float → string.
Variable Request : pyval → option header_map → result request.
Variable BeautifulSoup : bytes → list node.
Variable read_html : bytes → result (list DataFrame).
Variable K : klass.
Variables (cfd : loc) (w : world) (d : dict).
Hypothesis Hcfd : heap w !! cfd = Some d.

(** The session and the world when the five configuration calls of the
    script have run. *)
Lemma script_configured (rest : M unit) :
  (set_headers (Some HEADERS);;
   set_form_data (Some cfd);;
   set_time_frame_frequency (VStr "Daily");;
   set_sort_order (VStr "DESC");;
   set_start_end_date K (VStr "1/1/2017") None;;
   rest)
    (__init__ "https://www.investing.com/instruments/HistoricalDataAjax" w) w
  = rest
      (with_data (Some cfd)
         (with_headers (Some HEADERS)
            (__init__ "https://www.investing.com/instruments/HistoricalDataAjax" w)))
      (with_heap
         (<[cfd := foldl (writes_of K) d script_setters]> (heap w)) w).
Proof.
  erewrite bind_ok by reflexivity.
  erewrite bind_ok by reflexivity.
  erewrite bind_ok
    by (apply (call_writes K (SetFrequency _) cfd d); [reflexivity | exact Hcfd]).
  erewrite bind_ok
    by (apply (call_writes K (SetSortOrder _) cfd); [reflexivity | apply lookup_insert_eq]).
  erewrite bind_ok
    by (apply (call_writes K (SetDateRange _ _) cfd); [reflexivity | apply lookup_insert_eq]).
  cbn. rewrite !insert_insert_eq. reflexivity.
Qed.

(** X23: the script, when everything answers.  With a text [name] and a
    [url] in [CFD], a page whose first price node converts, an answer with
    a table and a write of the series that ends normally, the script ends
    normally: the price and the first table are stored, [CFD] holds the four
    query fields, the console shows the summary line, the header line, the
    first ten rows and the completion message in this order, and what was
    written is in one file named after the [name] and the time of
    construction. *)
Theorem script_runs_to_the_export (url : pyval) (name : string)
    (req : request) (page : bytes) (str_price : string) (rest : list string)
    (x : spec_float) (body : bytes) (df : DataFrame)
    (others : list DataFrame) (lines : list string) :
  d !! "url" = Some url → d !! "name" = Some (VStr name) →
  Request url (Some HEADERS) = Ok req → urlopen w req = Ok page →
  price_lines BeautifulSoup page = str_price :: rest →
  contains_char "," str_price = false → float str_price = Some x →
  post w script_api (Some (foldl (writes_of K) d script_setters)) (Some HEADERS)
  = Ok body →
  read_html body = Ok (df :: others) →
  to_csv w df
    (name +:+ "_" +:+ strftime (clock w) "%Y%m%d_%H%M%S" +:+ ".csv")
    "," true false
  = {| written := Some lines; ending := Ok tt |} →
  let r := main float str_float Request BeautifulSoup read_html K cfd w in
  outcome r = Ok tt
  ∧ latest_price (self_after r) = VFloat x
  ∧ observations (self_after r) = Some df
  ∧ heap (world_after r) !! cfd = Some (foldl (writes_of K) d script_setters)
  ∧ stdout (world_after r)
    = (stdout w
       ++ [OutLine (strftime (clock w) "%Y-%m-%d %H:%M:%S"
                    +:+ ": The latest price of " +:+ name +:+ " is "
                    +:+ str_float x);
           header_line; OutFrame (head 10 df); OutLine "Save completed!"])%list
  ∧ files (world_after r)
    = <[name +:+ "_" +:+ strftime (clock w) "%Y%m%d_%H%M%S" +:+ ".csv"
        := lines]> (files w).
Proof.
  intros Hurl Hname Hreq Hopen Hlines Hcomma Hfloat Hpost Hread Hcsv r.
  subst r. rewrite <- (append_assoc name) in Hcsv.
  unfold main. rewrite script_configured.
  erewrite bind_ok;
    [| eapply (price_parsed float Request BeautifulSoup _ _ cfd
                 (foldl (writes_of K) d script_setters) url req);
       [reflexivity | apply lookup_insert_eq
        | rewrite writes_frame by apply url_not_setter_key; exact Hurl
        | exact Hreq | exact Hopen | exact Hlines | exact Hcomma
        | exact Hfloat]].
  erewrite bind_ok;
    [| eapply (series_fetched read_html _ _ cfd
                 (foldl (writes_of K) d script_setters) body);
       [reflexivity | apply lookup_insert_eq | exact Hpost | exact Hread]].
  erewrite bind_ok;
    [| eapply (print_data_series str_float _ _ cfd
                 (foldl (writes_of K) d script_setters));
       [reflexivity | apply lookup_insert_eq
        | rewrite writes_frame by apply name_not_setter_key; exact Hname
        | reflexivity]].
  erewrite (save_series _ _ cfd (foldl (writes_of K) d script_setters)
              name df lines);
    [| reflexivity | apply lookup_insert_eq
     | rewrite writes_frame by apply name_not_setter_key; exact Hname
     | reflexivity | exact Hcsv].
  unfold outcome, self_after, world_after, summary_line; cbn.
  rewrite <- !app_assoc, !append_assoc; cbn.
  repeat split. apply lookup_insert_eq.
Qed.

(** X24: the script, when the page cannot be reached.  A [URLError] of the
    live-price request does not stop the script: its reason is printed
    first, the history is fetched and shown all the same, the summary line
    shows the price [0] of the constructor, and when the write of the series
    ends normally the file is there and the completion message is printed. *)
Theorem script_survives_offline_price (url : pyval) (name : string)
    (req : request) (e : exn) (body : bytes) (df : DataFrame)
    (others : list DataFrame) (lines : list string) :
  d !! "url" = Some url → d !! "name" = Some (VStr name) →
  Request url (Some HEADERS) = Ok req →
  urlopen w req = Raise e → is_URLError e = true →
  post w script_api (Some (foldl (writes_of K) d script_setters)) (Some HEADERS)
  = Ok body →
  read_html body = Ok (df :: others) →
  to_csv w df
    (name +:+ "_" +:+ strftime (clock w) "%Y%m%d_%H%M%S" +:+ ".csv")
    "," true false
  = {| written := Some lines; ending := Ok tt |} →
  let r := main float str_float Request BeautifulSoup read_html K cfd w in
  outcome r = Ok tt
  ∧ latest_price (self_after r) = VInt 0
  ∧ observations (self_after r) = Some df
  ∧ stdout (world_after r)
    = (stdout w
       ++ [OutLine (reason e);
           OutLine (strftime (clock w) "%Y-%m-%d %H:%M:%S"
                    +:+ ": The latest price of " +:+ name +:+ " is 0");
           header_line; OutFrame (head 10 df); OutLine "Save completed!"])%list
  ∧ files (world_after r)
    = <[name +:+ "_" +:+ strftime (clock w) "%Y%m%d_%H%M%S" +:+ ".csv"
        := lines]> (files w).
Proof.
  intros Hurl Hname Hreq Hopen He Hpost Hread Hcsv r.
  subst r. rewrite <- (append_assoc name) in Hcsv.
  unfold main. rewrite script_configured.
  erewrite bind_ok;
    [| eapply (transport_failure float Request BeautifulSoup _ _ cfd
                 (foldl (writes_of K) d script_setters) url req);
       [reflexivity | apply lookup_insert_eq
        | rewrite writes_frame by apply url_not_setter_key; exact Hurl
        | exact Hreq | exact Hopen | exact He]].
  erewrite bind_ok;
    [| eapply (series_fetched read_html _ _ cfd
                 (foldl (writes_of K) d script_setters) body);
       [reflexivity | apply lookup_insert_eq | exact Hpost | exact Hread]].
  erewrite bind_ok;
    [| eapply (print_data_series str_float _ _ cfd
                 (foldl (writes_of K) d script_setters));
       [reflexivity | apply lookup_insert_eq
        | rewrite writes_frame by apply name_not_setter_key; exact Hname
        | reflexivity]].
  erewrite (save_series _ _ cfd (foldl (writes_of K) d script_setters)
              name df lines);
    [| reflexivity | apply lookup_insert_eq
     | rewrite writes_frame by apply name_not_setter_key; exact Hname
     | reflexivity | exact Hcsv].
  unfold outcome, self_after, world_after, summary_line; cbn.
  rewrite <- !app_assoc, !append_assoc; cbn.
  repeat split.
Qed.

(** X25: the script, at a price with a thousands separator.  The fault of
    the misspelt [replae] ends the script at the live-price fetch: the
    history is not fetched, nothing is printed and no file is written, while
    [CFD] already holds the four query fields. *)
Theorem script_stops_at_comma_price (url : pyval) (req : request)
    (page : bytes) (str_price : string) (rest : list string) :
  d !! "url" = Some url →
  Request url (Some HEADERS) = Ok req → urlopen w req = Ok page →
  price_lines BeautifulSoup page = str_price :: rest →
  contains_char "," str_price = true →
  let r := main float str_float Request BeautifulSoup read_html K cfd w in
  outcome r = Raise (AttributeError "'str' object has no attribute 'replae'")
  ∧ observations (self_after r) = None
  ∧ latest_price (self_after r) = VInt 0
  ∧ stdout (world_after r) = stdout w
  ∧ files (world_after r) = files w
  ∧ heap (world_after r) !! cfd = Some (foldl (writes_of K) d script_setters).
Proof.
  intros Hurl Hreq Hopen Hlines Hcomma r. subst r.
  unfold main. rewrite script_configured.
  erewrite bind_raise;
    [| eapply (price_with_comma float Request BeautifulSoup _ _ cfd
                 (foldl (writes_of K) d script_setters) url req);
       [reflexivity | apply lookup_insert_eq
        | rewrite writes_frame by apply url_not_setter_key; exact Hurl
        | exact Hreq | exact Hopen | exact Hlines | exact Hcomma]].
  unfold outcome, self_after, world_after; cbn.
  repeat split. apply lookup_insert_eq.
Qed.

(** X26: the script, at an answer without a table.  The exception of the
    parser ends the script after the price was stored: nothing is printed
    and no file is written. *)
Theorem script_stops_without_table (url : pyval) (req : request)
    (page : bytes) (str_price : string) (rest : list string)
    (x : spec_float) (body : bytes) (e : exn) :
  d !! "url" = Some url →
  Request url (Some HEADERS) = Ok req → urlopen w req = Ok page →
  price_lines BeautifulSoup page = str_price :: rest →
  contains_char "," str_price = false → float str_price = Some x →
  post w script_api (Some (foldl (writes_of K) d script_setters)) (Some HEADERS)
  = Ok body →
  read_html body = Raise e →
  let r := main float str_float Request BeautifulSoup read_html K cfd w in
  outcome r = Raise e
  ∧ latest_price (self_after r) = VFloat x
  ∧ observations (self_after r) = None
  ∧ stdout (world_after r) = stdout w
  ∧ files (world_after r) = files w.
Proof.
  intros Hurl Hreq Hopen Hlines Hcomma Hfloat Hpost Hread r. subst r.
  unfold main. rewrite script_configured.
  erewrite bind_ok;
    [| eapply (price_parsed float Request BeautifulSoup _ _ cfd
                 (foldl (writes_of K) d script_setters) url req);
       [reflexivity | apply lookup_insert_eq
        | rewrite writes_frame by apply url_not_setter_key; exact Hurl
        | exact Hreq | exact Hopen | exact Hlines | exact Hcomma
        | exact Hfloat]].
  erewrite bind_raise;
    [| eapply (parser_fault_escapes read_html _ _ cfd
                 (foldl (writes_of K) d script_setters) body);
       [reflexivity | apply lookup_insert_eq | exact Hpost | exact Hread]].
  unfold outcome, self_after, world_after; cbn.
  repeat split.
Qed.

End MainScript.

(** ** Examples of the traces and of the script *)

Lemma session_writes_only_setter_keys_witness :
  let w := Demo.world0 Demo.body Demo.body in
  let K := IndexHistoricalData w in
  let es := [Call (SetHeaders (Some HEADERS)); Call (SetFormData (Some Demo.cfd));
             Call (Setter (SetFrequency (VStr "Daily")));
             Env Demo.t1 (urlopen w) (post w) (to_csv w);
             Call GetLatestPrice; Call GetHistoricalPrice;
             Call PrintData; Call SaveCsv] in
  let w' := (after Demo.float Demo.str_float Demo.Request
               (λ _, Demo.page_showing "67.45") Demo.read_html_table3 K es
               (__init__ "" w) w).2 in
  ∃ d' : dict,
    heap w' !! Demo.cfd = Some d' ∧ d' !! "name" = Some (VStr "CFD")
    ∧ d' !! "curr_id" = Some (VInt 8861).
Proof.
  intros w K es w'.
  destruct (session_writes_only_setter_keys Demo.float Demo.str_float
              Demo.Request (λ _, Demo.page_showing "67.45")
              Demo.read_html_table3 K es (__init__ "" w) w Demo.cfd CFD
              (lookup_singleton_eq _ _)) as (d' & E & F & _).
  exists d'. split; [exact E |].
  split; rewrite F; try reflexivity;
    unfold setter_keys; rewrite !not_elem_of_cons;
    repeat split; (discriminate || apply not_elem_of_nil).
Defined.

Lemma only_setters_write_dictionaries_witness :
  let w := Demo.world0 Demo.body Demo.body in
  let K := IndexHistoricalData w in
  let es := [Call (SetFormData (Some Demo.cfd)); Call GetLatestPrice;
             Call GetHistoricalPrice; Call PrintData; Call SaveCsv] in
  heap (after Demo.float Demo.str_float Demo.Request
          (λ _, Demo.page_showing "67.45") Demo.read_html_table3 K es
          (Demo.configured w) w).2
  = heap w.
Proof.
  intros w K es.
  apply (only_setters_write_dictionaries Demo.float Demo.str_float
           Demo.Request (λ _, Demo.page_showing "67.45")
           Demo.read_html_table3 K es (Demo.configured w) w).
  intros c H. subst es.
  rewrite !elem_of_cons, elem_of_nil in H.
  repeat (destruct H as [H | H]; [discriminate H |]). exact H.
Defined.

Lemma results_have_one_writer_witness :
  let w := Demo.world0 Demo.body Demo.body in
  let K := IndexHistoricalData w in
  let es := [Call (SetFormData (Some Demo.cfd)); Call GetHistoricalPrice;
             Call PrintData] in
  let r := after Demo.float Demo.str_float Demo.Request
             (λ _, Demo.page_showing "67.45") Demo.read_html_table3 K es
             (Demo.configured w) w in
  latest_price r.1 = VInt 0 ∧ files r.2 = ∅.
Proof.
  intros w K es r.
  destruct (results_have_one_writer Demo.float Demo.str_float
              Demo.Request (λ _, Demo.page_showing "67.45")
              Demo.read_html_table3 K es (Demo.configured w) w)
    as (H1 & _ & H3).
  split; [apply H1 | apply H3]; subst es; intros H;
    rewrite !elem_of_cons, elem_of_nil in H;
    repeat (destruct H as [H | H]; [discriminate H |]); exact H.
Defined.

Lemma script_runs_to_the_export_witness :
  let w := Demo.strict_world Demo.body in
  let r := main Demo.float Demo.str_6745 Demo.Request
             (λ _, Demo.page_showing "67.45") Demo.read_html_table3
             (IndexHistoricalData w) Demo.cfd w in
  outcome r = Ok tt
  ∧ stdout (world_after r)
    = [OutLine "2019-03-01 09:05:07: The latest price of CFD is 67.45";
       header_line; OutFrame Demo.table3; OutLine "Save completed!"]
  ∧ files (world_after r)
    = {[ "CFD_20190301_090507.csv"
         := ["Date,Price,Open";
             Demo.quoted "Mar 01, 2019" +:+ ",620.25,611.00";
             Demo.quoted "Feb 28, 2019" +:+ ",611.50,622.75";
             Demo.quoted "Feb 27, 2019" +:+ ",623.00,615.25"] ]}.
Proof.
  intros w r.
  destruct (script_runs_to_the_export Demo.float Demo.str_6745 Demo.Request
              (λ _, Demo.page_showing "67.45") Demo.read_html_table3
              (IndexHistoricalData w) Demo.cfd w CFD (lookup_singleton_eq _ _)
              (VStr "https://www.investing.com/commodities/london-gas-oil-historical-data")
              "CFD"
              {| full_url := "https://www.investing.com/commodities/london-gas-oil-historical-data";
                 req_headers := HEADERS |}
              [] "67.45" [] (S754_finite false 4746371794783437 (-46)) []
              Demo.table3 [] (Demo.csv_lines Demo.table3 "," true false)
              eq_refl eq_refl eq_refl eq_refl eq_refl eq_refl eq_refl eq_refl
              eq_refl eq_refl) as (H1 & _ & _ & _ & H5 & H6).
  split; [exact H1 |]. split; [exact H5 | exact H6].
Defined.

Lemma script_survives_offline_price_witness :
  let w := Demo.strict_world Demo.unreachable in
  let r := main Demo.float Demo.str_float Demo.Request
             (λ _, Demo.page_showing "67.45") Demo.read_html_table3
             (IndexHistoricalData w) Demo.cfd w in
  outcome r = Ok tt
  ∧ stdout (world_after r)
    = [OutLine "[Errno -2] Name or service not known";
       OutLine "2019-03-01 09:05:07: The latest price of CFD is 0";
       header_line; OutFrame Demo.table3; OutLine "Save completed!"].
Proof.
  intros w r.
  destruct (script_survives_offline_price Demo.float Demo.str_float
              Demo.Request (λ _, Demo.page_showing "67.45")
              Demo.read_html_table3 (IndexHistoricalData w) Demo.cfd w CFD
              (lookup_singleton_eq _ _)
              (VStr "https://www.investing.com/commodities/london-gas-oil-historical-data")
              "CFD"
              {| full_url := "https://www.investing.com/commodities/london-gas-oil-historical-data";
                 req_headers := HEADERS |}
              (URLError "[Errno -2] Name or service not known") []
              Demo.table3 [] (Demo.csv_lines Demo.table3 "," true false)
              eq_refl eq_refl eq_refl eq_refl eq_refl eq_refl eq_refl eq_refl)
    as (H1 & _ & _ & H4 & _).
  split; [exact H1 | exact H4].
Defined.

Lemma script_stops_at_comma_price_witness :
  let w := Demo.strict_world Demo.body in
  let r := main Demo.float Demo.str_float Demo.Request
             (λ _, Demo.page_showing "1,234.56") Demo.read_html_table3
             (IndexHistoricalData w) Demo.cfd w in
  outcome r = Raise (AttributeError "'str' object has no attribute 'replae'")
  ∧ stdout (world_after r) = [] ∧ files (world_after r) = ∅
  ∧ heap (world_after r) !! Demo.cfd ≫= (.!! "frequency")
    = Some (VStr "Daily").
Proof.
  intros w r.
  destruct (script_stops_at_comma_price Demo.float Demo.str_float
              Demo.Request (λ _, Demo.page_showing "1,234.56")
              Demo.read_html_table3 (IndexHistoricalData w) Demo.cfd w CFD
              (lookup_singleton_eq _ _)
              (VStr "https://www.investing.com/commodities/london-gas-oil-historical-data")
              {| full_url := "https://www.investing.com/commodities/london-gas-oil-historical-data";
                 req_headers := HEADERS |}
              [] "1,234.56" []
              eq_refl eq_refl eq_refl eq_refl eq_refl)
    as (H1 & _ & _ & H4 & H5 & H6).
  split; [exact H1 |]. split; [exact H4 |]. split; [exact H5 |].
  fold r in H6. rewrite H6. reflexivity.
Defined.

Lemma script_stops_without_table_witness :
  let w := Demo.strict_world Demo.body in
  let r := main Demo.float Demo.str_float Demo.Request
             (λ _, Demo.page_showing "67.45") Demo.read_html_none
             (IndexHistoricalData w) Demo.cfd w in
  outcome r = Raise (ValueError "No tables found")
  ∧ latest_price (self_after r)
    = VFloat (S754_finite false 4746371794783437 (-46))
  ∧ stdout (world_after r) = [] ∧ files (world_after r) = ∅.
Proof.
  intros w r.
  destruct (script_stops_without_table Demo.float Demo.str_float
              Demo.Request (λ _, Demo.page_showing "67.45")
              Demo.read_html_none (IndexHistoricalData w) Demo.cfd w CFD
              (lookup_singleton_eq _ _)
              (VStr "https://www.investing.com/commodities/london-gas-oil-historical-data")
              {| full_url := "https://www.investing.com/commodities/london-gas-oil-historical-data";
                 req_headers := HEADERS |}
              [] "67.45" [] (S754_finite false 4746371794783437 (-46)) []
              (ValueError "No tables found")
              eq_refl eq_refl eq_refl eq_refl eq_refl eq_refl eq_refl eq_refl)
    as (H1 & H2 & _ & H4 & H5).
  split; [exact H1 |]. split; [exact H2 |]. split; [exact H4 | exact H5].
Defined.

(** ** The default end date *)

Lemma append_empty (a : string) : a +:+ "" = a.
Proof. induction a as [| x a IH]; cbn; [reflexivity | rewrite IH; reflexivity]. Qed.

(** X27: when the class is defined at a time of a four-digit year, the
    default end date is a text of the documented form MM/DD/YYYY: a
    two-digit month, a two-digit day and the four-digit year, separated by
    slashes. *)
Theorem default_end_date_format (w : world) :
  valid_datetime (clock w) →
  let mm := pad2 (month (clock w)) in
  let dd := pad2 (day (clock w)) in
  let yyyy := pretty (year (clock w)) in
  ending_date_default (IndexHistoricalData w)
  = VStr (mm +:+ "/" +:+ dd +:+ "/" +:+ yyyy)
  ∧ String.length mm = 2%nat ∧ all_digits mm = true
  ∧ String.length dd = 2%nat ∧ all_digits dd = true
  ∧ String.length yyyy = 4%nat ∧ all_digits yyyy = true.
Proof.
  intros (Hy & Hm & Hd & _) mm dd yyyy.
  destruct (pretty_year_digits (year (clock w)) Hy) as [Ly Dy].
  destruct (pad2_digits (month (clock w))) as [Lm Dm]; [lia |].
  destruct (pad2_digits (day (clock w))) as [Ld Dd]; [lia |].
  split; [| repeat split; assumption].
  subst mm dd yyyy. unfold IndexHistoricalData, strftime; cbn.
  rewrite append_empty. reflexivity.
Qed.

Lemma default_end_date_format_witness :
  valid_datetime Demo.t0
  ∧ ending_date_default (IndexHistoricalData (Demo.world0 Demo.body Demo.body))
    = VStr "03/01/2019".
Proof.
  assert (Hv : valid_datetime Demo.t0) by (cbv; intuition discriminate).
  split; [exact Hv |].
  exact (proj1 (default_end_date_format (Demo.world0 Demo.body Demo.body) Hv)).
Defined.
